(** * Feature engineering and encoding of [preprocess_climate_data.py]

    A shallow embedding of the preprocessing script: the Magnus-Tetens
    humidity formula, the pandas pipeline of [preprocess_data] (spatial
    mean, inner join on time, feature selection, [dropna], threshold
    label) and the encoder [prepare_for_quantum] (scikit-learn's
    [MinMaxScaler] on the range [0, pi] and the one-hot loop).

    Numbers.  A float64 entry is a [cell]: a finite value carried by a
    real number, or [NaN], the missing value of pandas.  Arithmetic on
    finite values is the arithmetic of the reals: rounding, overflow,
    the infinities of binary64 and what binary64 does on a zero divisor
    are not represented (the quotient of the reals is total).  An
    [int64] entry (the [target] column after [astype(int)]) is [Int z].

    Library calls are embedded by what they do on these data: the
    behaviour of xarray, pandas, numpy and scikit-learn is written out
    next to each definition. *)

From Stdlib Require Import Reals Lra Psatz Lia ZArith List String Bool.
Import ListNotations.

(** ** Floating-point cells *)

Module Numpy.

Inductive cell : Type :=
| Num (r : R)
| Int (z : Z)
| NaN.

(** The value of an entry once converted to float64; [None] for NaN. *)
Definition fval (c : cell) : option R :=
  match c with
  | Num r => Some r
  | Int z => Some (IZR z)
  | NaN => None
  end.

(** [pd.isna] on one entry. *)
Definition isna (c : cell) : bool :=
  match c with
  | NaN => true
  | _ => false
  end.

Definition lift1 (f : R -> R) (a : cell) : cell :=
  match fval a with
  | Some x => Num (f x)
  | None => NaN
  end.

(** Binary float operations: NaN is absorbing. *)
Definition lift2 (f : R -> R -> R) (a b : cell) : cell :=
  match fval a, fval b with
  | Some x, Some y => Num (f x y)
  | _, _ => NaN
  end.

Definition fadd : cell -> cell -> cell := lift2 Rplus.
Definition fsub : cell -> cell -> cell := lift2 Rminus.
Definition fmul : cell -> cell -> cell := lift2 Rmult.
Definition fdiv : cell -> cell -> cell := lift2 Rdiv.

(** [np.exp] *)
Definition np_exp : cell -> cell := lift1 exp.

(** [np.sqrt]: NaN on a negative argument. *)
Definition np_sqrt (a : cell) : cell :=
  match fval a with
  | Some x => if Rlt_dec x 0 then NaN else Num (sqrt x)
  | None => NaN
  end.

(** [a > b] on floats: every comparison with NaN is [False]. *)
Definition fgt (a b : cell) : bool :=
  match fval a, fval b with
  | Some x, Some y => if Rgt_dec x y then true else false
  | _, _ => false
  end.

(** [np.pi] *)
Definition np_pi : cell := Num PI.

(** [np.finfo(np.float64).eps] *)
Definition eps : R := / 2 ^ 52.

(** The finite entries of an array, in order (the entries kept by the
    [nan*] reductions and by [skipna=True]). *)
Fixpoint valid (l : list cell) : list R :=
  match l with
  | [] => []
  | c :: l' =>
      match fval c with
      | Some x => x :: valid l'
      | None => valid l'
      end
  end.

Definition Rsum (l : list R) : R := fold_left Rplus l 0%R.

(** [np.nanmin] and [np.nanmax] of one column: NaN entries are skipped;
    an all-NaN column gives NaN. *)
Definition nanmin (l : list cell) : cell :=
  match valid l with
  | [] => NaN
  | x :: xs => Num (fold_left Rmin xs x)
  end.

Definition nanmax (l : list cell) : cell :=
  match valid l with
  | [] => NaN
  | x :: xs => Num (fold_left Rmax xs x)
  end.

(** Mean with [skipna=True] (xarray's [mean] over the grid, pandas'
    [Series.mean]): the sum of the finite entries over their count, NaN
    when there is none. *)
Definition nanmean (l : list cell) : cell :=
  match valid l with
  | [] => NaN
  | v => Num (Rsum v / INR (List.length v))
  end.

(** pandas' [Series.std()]: [skipna=True] and [ddof=1].  With [count]
    finite entries, NaN when [count <= ddof]; otherwise the square root
    of [sum((avg - x)^2) / (count - ddof)]. *)
Definition nanvar (ddof : nat) (l : list cell) : cell :=
  let v := valid l in
  if (List.length v <=? ddof)%nat then NaN
  else
    let avg := (Rsum v / INR (List.length v))%R in
    let sqr := map (fun x => ((avg - x) ^ 2)%R) v in
    Num (Rsum sqr / INR (List.length v - ddof)).

Definition nanstd (ddof : nat) (l : list cell) : cell :=
  np_sqrt (nanvar ddof l).

End Numpy.
Export Numpy.

Declare Scope cell_scope.
Delimit Scope cell_scope with cell.
Bind Scope cell_scope with cell.
Notation "a + b" := (fadd a b) : cell_scope.
Notation "a - b" := (fsub a b) : cell_scope.
Notation "a * b" := (fmul a b) : cell_scope.
Notation "a / b" := (fdiv a b) : cell_scope.
Notation "a >? b" := (fgt a b) (at level 70, no associativity) : cell_scope.
Notation "# r" := (Num r%R) (at level 1, format "# r") : cell_scope.

(** ** The humidity formula *)

(** [calculate_relative_humidity(t2m, d2m)].  The script applies it to
    two columns of one frame; every numpy and pandas operation in its
    body is elementwise, so the function is given on one entry of each
    column and [series_map2] below applies it along the columns. *)
Definition calculate_relative_humidity (t2m d2m : cell) : cell :=
  let T := (t2m - #273.15)%cell in
  let TD := (d2m - #273.15)%cell in
  let rh :=
    (#100 * (np_exp ((#17.625 * TD) / (#243.04 + TD))
             / np_exp ((#17.625 * T) / (#243.04 + T))))%cell in
  rh.

(** ** Exceptions *)

Inductive exn : Type :=
| KeyError (missing : list string)
| ValueError
| IndexError
| FileNotFoundError.

Inductive result (A : Type) : Type :=
| Ok (a : A)
| Raise (e : exn).
Arguments Ok {A} a.
Arguments Raise {A} e.

Definition rbind {A B : Type} (m : result A) (k : A -> result B) : result B :=
  match m with
  | Ok a => k a
  | Raise e => Raise e
  end.

Notation "x <- m ;; k" := (rbind m (fun x => k))
  (at level 61, m at next level, right associativity).

(** ** Frames *)

Module Pandas.

(** A timestamp of the [time] coordinate ([datetime64[ns]]). *)
#[warnings="-notation-for-abbreviation"]
Notation Time := Z (only parsing).

(** A column with its index. *)
Definition Series : Type := list (Time * cell).
Definition BoolSeries : Type := list (Time * bool).

(** A frame: the column names and the rows, each with its index label.
    Every row holds one entry per column. *)
Record DataFrame : Type := mkDF {
  columns : list string;
  rows : list (Time * list cell)
}.

Definition index (df : DataFrame) : list Time := map fst (rows df).
Definition s_index (s : Series) : list Time := map fst s.
Definition s_values (s : Series) : list cell := map snd s.

(** [c in df.columns] *)
Definition has_column (c : string) (df : DataFrame) : bool :=
  existsb (String.eqb c) (columns df).

Fixpoint col_pos (c : string) (cols : list string) : option nat :=
  match cols with
  | [] => None
  | c' :: cs =>
      if String.eqb c c' then Some 0%nat else option_map S (col_pos c cs)
  end.

Definition cell_at (c : string) (cols : list string) (r : list cell) : cell :=
  match col_pos c cols with
  | Some i => nth i r NaN
  | None => NaN
  end.

(** [df[c]]: the column, or [KeyError]. *)
Definition getitem (df : DataFrame) (c : string) : result Series :=
  if has_column c df
  then Ok (map (fun r => (fst r, cell_at c (columns df) (snd r))) (rows df))
  else Raise (KeyError [c]).

(** [df[[c1, ..., cn]]]: the sub-frame with these columns in the order
    asked, or [KeyError] naming the labels that are not columns. *)
Definition getitem_list (df : DataFrame) (cs : list string) : result DataFrame :=
  match filter (fun c => negb (has_column c df)) cs with
  | [] =>
      Ok (mkDF cs
            (map (fun r => (fst r, map (fun c => cell_at c (columns df) (snd r)) cs))
                 (rows df)))
  | missing => Raise (KeyError missing)
  end.

(** [df.drop(columns=[c])] *)
Fixpoint remove_nth {A : Type} (i : nat) (l : list A) : list A :=
  match l, i with
  | [], _ => []
  | _ :: l', O => l'
  | x :: l', S i' => x :: remove_nth i' l'
  end.

Definition drop_column (df : DataFrame) (c : string) : result DataFrame :=
  match col_pos c (columns df) with
  | Some i =>
      Ok (mkDF (remove_nth i (columns df))
            (map (fun r => (fst r, remove_nth i (snd r))) (rows df)))
  | None => Raise (KeyError [c])
  end.

(** [left.join(right, how='inner', rsuffix=s)], a join on the index:
    the rows whose label is in both indexes, in the order of the calling
    frame, each left row paired with every right row of the same label.
    A right column whose name is also a left column gets the suffix. *)
Definition joined_columns (lcols rcols : list string) (rsuffix : string)
  : list string :=
  lcols ++
  map (fun c => if existsb (String.eqb c) lcols then (c ++ rsuffix)%string else c)
      rcols.

Definition join_inner (left right : DataFrame) (rsuffix : string) : DataFrame :=
  mkDF (joined_columns (columns left) (columns right) rsuffix)
       (flat_map
          (fun l =>
             map (fun r => (fst l, snd l ++ snd r))
                 (filter (fun r => Z.eqb (fst r) (fst l)) (rows right)))
          (rows left)).

(** [df.dropna()]: the rows without a missing entry. *)
Definition complete (r : Time * list cell) : bool :=
  forallb (fun c => negb (isna c)) (snd r).

Definition dropna (df : DataFrame) : DataFrame :=
  mkDF (columns df) (filter complete (rows df)).

(** [s.mean()] and [s.std()] with pandas' defaults. *)
Definition mean (s : Series) : cell := nanmean (s_values s).
Definition std (s : Series) : cell := nanstd 1 (s_values s).

(** [s > x] and [.astype(int)] *)
Definition gt_scalar (s : Series) (x : cell) : BoolSeries :=
  map (fun p : Time * cell => (fst p, (snd p >? x)%cell)) s.

Definition astype_int (s : BoolSeries) : Series :=
  map (fun p : Time * bool => (fst p, Int (if snd p then 1%Z else 0%Z))) s.

(** Elementwise operation on two columns of one frame. *)
Definition series_map2 (f : cell -> cell -> cell) (a b : Series) : Series :=
  map (fun p => (fst (fst p), f (snd (fst p)) (snd (snd p)))) (combine a b).

(** [index.is_unique] *)
Fixpoint is_unique (l : list Time) : bool :=
  match l with
  | [] => true
  | t :: l' => negb (existsb (Z.eqb t) l') && is_unique l'
  end.

(** The value of [s] at the label [t], NaN when [t] is not a label. *)
Definition lookup (t : Time) (s : Series) : cell :=
  match find (fun p => Z.eqb (fst p) t) s with
  | Some p => snd p
  | None => NaN
  end.

Fixpoint replace_nth {A : Type} (i : nat) (x : A) (l : list A) : list A :=
  match l, i with
  | [], _ => []
  | _ :: l', O => x :: l'
  | y :: l', S i' => y :: replace_nth i' x l'
  end.

(** A row and the column names after the entry of column [c] is set:
    the entry is replaced when [c] is a column and appended otherwise. *)
Definition put (cols : list string) (c : string) (v : cell) (r : list cell)
  : list cell :=
  match col_pos c cols with
  | Some i => replace_nth i v r
  | None => r ++ [v]
  end.

Definition put_name (cols : list string) (c : string) : list string :=
  match col_pos c cols with
  | Some _ => cols
  | None => cols ++ [c]
  end.

(** [DataFrame._ensure_valid_index]: a frame without rows takes the
    index of a non-empty series that is assigned to one of its columns,
    and its columns are filled with NaN. *)
Definition ensure_valid_index (df : DataFrame) (s : Series) : DataFrame :=
  match rows df, s with
  | [], _ :: _ =>
      mkDF (columns df)
           (map (fun p => (fst p, repeat NaN (List.length (columns df)))) s)
  | _, _ => df
  end.

(** [df[c] = s] for a Series [s]: the values are aligned on the index.
    After [_ensure_valid_index], when both indexes are equal the values
    are taken by position; otherwise [s] is reindexed by the labels of
    the frame, which needs the labels of [s] to be unique ([ValueError]
    when they are not), and a label of the frame missing from [s] gets
    NaN. *)
Definition setitem (df : DataFrame) (c : string) (s : Series) : result DataFrame :=
  let df := ensure_valid_index df s in
  if list_eq_dec Z.eq_dec (s_index s) (index df) then
    Ok (mkDF (put_name (columns df) c)
          (map (fun p => (fst (fst p), put (columns df) c (snd (snd p)) (snd (fst p))))
               (combine (rows df) s)))
  else if is_unique (s_index s) then
    Ok (mkDF (put_name (columns df) c)
          (map (fun r => (fst r, put (columns df) c (lookup (fst r) s) (snd r)))
               (rows df)))
  else Raise ValueError.

End Pandas.
Export Pandas.

(** ** Gridded files *)

Module Xarray.

(** A gridded dataset: the names of its data variables and, for every
    timestamp, the grid of each variable (its latitude-longitude cells
    in one list). *)
Record Dataset : Type := mkDS {
  data_vars : list string;
  steps : list (Time * list (list cell))
}.

(** [ds.mean(dim=['latitude', 'longitude']).to_dataframe()]: one row per
    timestamp, one column per variable, each entry the unweighted mean
    of the grid, missing cells skipped. *)
Definition spatial_mean_frame (ds : Dataset) : DataFrame :=
  mkDF (data_vars ds)
       (map (fun st => (fst st, map nanmean (snd st))) (steps ds)).

End Xarray.
Export Xarray.

(** ** scikit-learn's [MinMaxScaler] *)

Module Sklearn.

(** A two-dimensional float64 array, by rows. *)
Definition ndarray : Type := list (list cell).

Definition column (X : ndarray) (j : nat) : list cell :=
  map (fun r => nth j r NaN) X.

(** [_handle_zeros_in_scale]: a range below [10 * eps] (a constant
    column) is replaced by [1], so that no division by zero happens. *)
Definition handle_zeros_in_scale (scale : cell) : cell :=
  match fval scale with
  | Some r => if Rlt_dec r (10 * eps) then #1 else #r
  | None => NaN
  end.

(** [fit]: for every column, [scale_] and [min_] from the column's
    [nanmin] and [nanmax]. *)
Definition fit_column (lo hi : cell) (col : list cell) : cell * cell :=
  let data_min := nanmin col in
  let data_max := nanmax col in
  let data_range := (data_max - data_min)%cell in
  let scale_ := ((hi - lo) / handle_zeros_in_scale data_range)%cell in
  let min_ := (lo - data_min * scale_)%cell in
  (scale_, min_).

Definition fit (lo hi : cell) (ncols : nat) (X : ndarray) : list (cell * cell) :=
  map (fun j => fit_column lo hi (column X j)) (seq 0 ncols).

(** [transform]: [X *= scale_; X += min_] *)
Definition transform_cell (x : cell) (p : cell * cell) : cell :=
  (x * fst p + snd p)%cell.

Definition transform (params : list (cell * cell)) (X : ndarray) : ndarray :=
  map (fun r => map (fun xp => transform_cell (fst xp) (snd xp)) (combine r params)) X.

(** [MinMaxScaler(feature_range=(lo, hi)).fit_transform(df)]: input
    validation refuses an array without rows or without columns with
    [ValueError]; NaN entries are allowed and stay NaN. *)
Definition fit_transform (lo hi : cell) (df : DataFrame) : result ndarray :=
  match rows df, columns df with
  | [], _ => Raise ValueError
  | _, [] => Raise ValueError
  | _, _ =>
      let X := map snd (rows df) in
      Ok (transform (fit lo hi (List.length (columns df)) X) X)
  end.

End Sklearn.
Export Sklearn.

(** ** The feature builder *)

Open Scope string_scope.

Definition features : list string :=
  ["sst"; "relative_humidity"; "sp"; "ssrd"].

(** Lines 41-42: the humidity column is added when both temperatures
    are columns of the local frame. *)
Definition add_relative_humidity (df_uber : DataFrame) : result DataFrame :=
  if has_column "t2m" df_uber && has_column "d2m" df_uber then
    t2m <- getitem df_uber "t2m";;
    d2m <- getitem df_uber "d2m";;
    setitem df_uber "relative_humidity"
            (series_map2 calculate_relative_humidity t2m d2m)
  else Ok df_uber.

(** Line 50: [df_uber.join(df_sst[['sst']], how='inner', rsuffix='_ocean')] *)
Definition join_step (df_uber df_sst : DataFrame) : result DataFrame :=
  sst <- getitem_list df_sst ["sst"];;
  Ok (join_inner df_uber sst "_ocean").

(** Line 54: [df_final[features].dropna()] *)
Definition select_step (df_final : DataFrame) : result DataFrame :=
  selected <- getitem_list df_final features;;
  Ok (dropna selected).

(** Line 58: [df_final['t2m'].mean() + 2 * df_final['t2m'].std()] *)
Definition threshold (t2m : Series) : cell :=
  (mean t2m + #2 * std t2m)%cell.

(** Line 59, right-hand side: [(df_final['t2m'] > threshold).astype(int)] *)
Definition target_step (df_final : DataFrame) : result Series :=
  t2m <- getitem df_final "t2m";;
  Ok (astype_int (gt_scalar t2m (threshold t2m))).

(** Lines 52-62 *)
Definition label_step (df_final : DataFrame) : result DataFrame :=
  df_model <- select_step df_final;;
  target <- target_step df_final;;
  setitem df_model "target" target.

(** Lines 36-62 on the two opened datasets. *)
Definition build_dataset (ds_uber ds_sst : Dataset) : result DataFrame :=
  let df_uber := spatial_mean_frame ds_uber in
  df_uber <- add_relative_humidity df_uber;;
  let df_sst := spatial_mean_frame ds_sst in
  df_final <- join_step df_uber df_sst;;
  label_step df_final.

(** The joined frame [df_final] of a run. *)
Definition joined_frame (ds_uber ds_sst : Dataset) : result DataFrame :=
  df_uber <- add_relative_humidity (spatial_mean_frame ds_uber);;
  join_step df_uber (spatial_mean_frame ds_sst).

(** ** The encoder *)

Definition np_zeros (n m : nat) : ndarray := repeat (repeat (#0)%cell m) n.

(** [y[i, j] = v] *)
Definition set2 (y : ndarray) (i j : nat) (v : cell) : ndarray :=
  match nth_error y i with
  | Some row => replace_nth i (replace_nth j v row) y
  | None => y
  end.

(** [y_one_hot[i, val] = 1] on an array of width 2: an integer index in
    [0, 2) is used as it is, one in [-2, 0) counts from the end, any
    other integer and any float raise [IndexError]. *)
Definition assign_hot (y : ndarray) (i : nat) (val : cell) : result ndarray :=
  match val with
  | Int z =>
      if ((0 <=? z) && (z <? 2))%Z then Ok (set2 y i (Z.to_nat z) #1)
      else if ((-2 <=? z) && (z <? 0))%Z then Ok (set2 y i (Z.to_nat (z + 2)) #1)
      else Raise IndexError
  | _ => Raise IndexError
  end.

(** [for i, val in enumerate(target): y_one_hot[i, val] = 1] *)
Fixpoint one_hot_loop (target : list cell) (i : nat) (y : ndarray)
  : result ndarray :=
  match target with
  | [] => Ok y
  | val :: rest =>
      y' <- assign_hot y i val;;
      one_hot_loop rest (S i) y'
  end.

Definition prepare_for_quantum (df : DataFrame) : result (ndarray * ndarray) :=
  features <- drop_column df "target";;
  target <- getitem df "target";;
  X_scaled <- fit_transform #0 np_pi features;;
  let y_one_hot := np_zeros (List.length target) 2 in
  y_one_hot <- one_hot_loop (s_values target) 0 y_one_hot;;
  Ok (X_scaled, y_one_hot).

(** ** Files and the script *)

(** The files of the working directory that hold a dataset; [None] for
    a path that does not exist. *)
Definition FS : Type := string -> option Dataset.

(** What a run does to the file system, in order. *)
Inductive event : Type :=
| EvExists (path : string)
| EvOpen (path : string)
| EvSave (path : string) (a : ndarray).

(** A computation reads the file system, appends to the trace and
    returns a value or raises. *)
Definition IO (A : Type) : Type := FS -> list event -> list event * result A.

Definition ret {A : Type} (a : A) : IO A := fun _ tr => (tr, Ok a).

Definition bind {A B : Type} (m : IO A) (k : A -> IO B) : IO B :=
  fun fs tr =>
    match m fs tr with
    | (tr', Ok a) => k a fs tr'
    | (tr', Raise e) => (tr', Raise e)
    end.

Notation "x <~ m ;; k" := (bind m (fun x => k))
  (at level 61, m at next level, right associativity).

Definition lift {A : Type} (r : result A) : IO A := fun _ tr => (tr, r).

(** [os.path.exists(path)] *)
Definition path_exists (path : string) : IO bool :=
  fun fs tr =>
    ((tr ++ [EvExists path])%list,
     Ok (match fs path with Some _ => true | None => false end)).

(** [xr.open_dataset(path)]; a path that does not exist raises. *)
Definition open_dataset (path : string) : IO Dataset :=
  fun fs tr =>
    ((tr ++ [EvOpen path])%list,
     match fs path with Some ds => Ok ds | None => Raise FileNotFoundError end).

(** [np.save(path, a)] *)
Definition np_save (path : string) (a : ndarray) : IO unit :=
  fun _ tr => ((tr ++ [EvSave path a])%list, Ok tt).

(** [preprocess_data(era5_file, sst_file)]; the value [None] of Python
    is [None] here.  The [or] of line 31 evaluates its second operand
    only when the first file exists. *)
Definition preprocess_data (era5_file sst_file : string) : IO (option DataFrame) :=
  e1 <~ path_exists era5_file;;
  e2 <~ (if e1 then path_exists sst_file else ret true);;
  if negb e1 || negb e2 then ret None
  else
    ds_uber <~ open_dataset era5_file;;
    df_uber <~ lift (add_relative_humidity (spatial_mean_frame ds_uber));;
    ds_sst <~ open_dataset sst_file;;
    df_final <~ lift (join_step df_uber (spatial_mean_frame ds_sst));;
    df_model <~ lift (label_step df_final);;
    ret (Some df_model).

Definition ERA5_FILE : string := "era5_uberlandia_2020.nc".
Definition SST_FILE : string := "era5_sst_atlantic_2020.nc".

(** The [__main__] block. *)
Definition main : IO unit :=
  df_processed <~ preprocess_data ERA5_FILE SST_FILE;;
  match df_processed with
  | Some df =>
      Xy <~ lift (prepare_for_quantum df);;
      _ <~ np_save "X_quantum_ready.npy" (fst Xy);;
      np_save "y_quantum_ready.npy" (snd Xy)
  | None => ret tt
  end.

(** * Vocabulary of the statements *)

Open Scope R_scope.
Open Scope list_scope.


(** The arithmetic mean of a list of finite values. *)
Definition average (v : list R) : R := (Rsum v / INR (List.length v))%R.

(** The sample standard deviation (divisor [n - 1]). *)
Definition sample_std (v : list R) : R :=
  sqrt (Rsum (map (fun x => ((average v - x) ^ 2)%R) v)
        / INR (List.length v - 1)).

(** The population standard deviation (divisor [n]) that the
    specification names. *)
Definition population_std_spec (v : list R) : R :=
  sqrt (Rsum (map (fun x => ((x - average v) ^ 2)%R) v)
        / INR (List.length v)).

(** The affine map of the specification and its inverse. *)
Definition affine_spec (mn mx x : R) : R := ((x - mn) / (mx - mn) * PI)%R.

(** The one-hot row of a label, as the specification gives it. *)
Definition one_hot_spec (l : Z) : list cell :=
  if Z.eqb l 0 then [Num 1; Num 0] else [Num 0; Num 1].

(** An entry of a binary target column. *)
Definition is_binary (c : cell) : Prop := c = Int 0 \/ c = Int 1.

Definition label_of (c : cell) : Z :=
  match c with
  | Int z => z
  | _ => 0%Z
  end.

(** An event that only asks whether a path exists. *)
Definition is_check (e : event) : Prop :=
  match e with
  | EvExists _ => True
  | _ => False
  end.

(** The four selected entries of a joined row. *)
Definition feature_row (df_final : DataFrame) (r : Time * list cell)
  : Time * list cell :=
  (fst r, map (fun c => cell_at c (columns df_final) (snd r)) features).

(** The local temperature of a joined row. *)
Definition t2m_of (df_final : DataFrame) (r : Time * list cell) : cell :=
  cell_at "t2m" (columns df_final) (snd r).

(** The joined rows without a missing value among the four features,
    and the joined rows with one. *)
Definition kept_rows (df_final : DataFrame) : list (Time * list cell) :=
  filter (fun r => complete (feature_row df_final r)) (rows df_final).

Definition dropped_rows (df_final : DataFrame) : list (Time * list cell) :=
  filter (fun r => negb (complete (feature_row df_final r))) (rows df_final).

(** The label of a temperature against the threshold of the column. *)
Definition label_cell (t2m : Series) (c : cell) : Z :=
  if (c >? threshold t2m)%cell then 1%Z else 0%Z.

(** A joined row as it stands in the dataset: its four features and
    its label. *)
Definition labelled_row (df_final : DataFrame) (t2m : Series)
  (r : Time * list cell) : Time * list cell :=
  (fst r,
   (snd (feature_row df_final r)
    ++ [Int (label_cell t2m (t2m_of df_final r))])%list).

(** A joined row as line 59 leaves it when [dropna] kept no row: the
    features are NaN. *)
Definition refilled_row (df_final : DataFrame) (t2m : Series)
  (r : Time * list cell) : Time * list cell :=
  (fst r, [NaN; NaN; NaN; NaN; Int (label_cell t2m (t2m_of df_final r))]).

(** * Inputs of the examples *)

(** Local timestamps 1, 2, 3 and teleconnection timestamps 2, 3, 4. *)
Definition c7_local : DataFrame :=
  mkDF ["t2m"; "d2m"; "sp"; "ssrd"]
    [ (1%Z, [Num 290; Num 285; Num 91000; Num 800]);
      (2%Z, [Num 291; Num 286; Num 91100; Num 810]);
      (3%Z, [Num 292; Num 287; Num 91200; Num 820]) ].

Definition c7_sst : DataFrame :=
  mkDF ["sst"]
    [ (2%Z, [Num 299]); (3%Z, [Num 300]); (4%Z, [Num 301]) ].

(** A joined frame of six timestamps; the last one is the warmest. *)
Definition c2_final : DataFrame :=
  mkDF ["t2m"; "d2m"; "sp"; "ssrd"; "relative_humidity"; "sst"]
    [ (1%Z, [Num 280; Num 275; Num 91000; Num 800; Num 50; Num 299]);
      (2%Z, [Num 280; Num 275; Num 91000; Num 800; Num 50; Num 299]);
      (3%Z, [Num 280; Num 275; Num 91000; Num 800; Num 50; Num 299]);
      (4%Z, [Num 280; Num 275; Num 91000; Num 800; Num 50; Num 299]);
      (5%Z, [Num 282; Num 275; Num 91000; Num 800; Num 50; Num 299]);
      (6%Z, [Num 290; Num 275; Num 91000; Num 800; Num 50; Num 299]) ].

Definition c2_t2m : Series :=
  [ (1%Z, Num 280); (2%Z, Num 280); (3%Z, Num 280); (4%Z, Num 280);
    (5%Z, Num 282); (6%Z, Num 290) ].

Definition c2_temperatures : list R := [280; 280; 280; 280; 282; 290].

(** A joined frame whose local file carries its own humidity variable
    and no dew point; the temperature of timestamp 2 is missing. *)
Definition c10_final : DataFrame :=
  mkDF ["t2m"; "relative_humidity"; "sp"; "ssrd"; "sst"]
    [ (1%Z, [Num 290; Num 60; Num 91000; Num 800; Num 299]);
      (2%Z, [NaN; Num 55; Num 91100; Num 810; Num 300]);
      (3%Z, [Num 292; Num 50; Num 91200; Num 820; Num 301]) ].

(** A local file with one timestamp on a one-cell grid, and a sea
    surface temperature file whose two cells are masked at that time. *)
Definition c6_uber : Dataset :=
  mkDS ["t2m"; "d2m"; "sp"; "ssrd"]
    [ (1%Z, [[Num 298.15]; [Num 293.15]; [Num 91000]; [Num 800]]) ].

Definition c6_sst : Dataset :=
  mkDS ["sst"] [ (1%Z, [[NaN; NaN]]) ].

Definition c6_fs : FS :=
  fun path =>
    if String.eqb path ERA5_FILE then Some c6_uber
    else if String.eqb path SST_FILE then Some c6_sst
    else None.




(** A dataset of four rows: the humidity column is 2, 4, 6, 8 and the
    pressure column is constant. *)
Definition enc_df : DataFrame :=
  mkDF ["sst"; "relative_humidity"; "sp"; "ssrd"; "target"]
    [ (1%Z, [Num 299; Num 2; Num 91000; Num 800; Int 0]);
      (2%Z, [Num 300; Num 4; Num 91000; Num 810; Int 0]);
      (3%Z, [Num 301; Num 6; Num 91000; Num 820; Int 1]);
      (4%Z, [Num 302; Num 8; Num 91000; Num 830; Int 0]) ].

Definition enc_feats : DataFrame :=
  mkDF ["sst"; "relative_humidity"; "sp"; "ssrd"]
    [ (1%Z, [Num 299; Num 2; Num 91000; Num 800]);
      (2%Z, [Num 300; Num 4; Num 91000; Num 810]);
      (3%Z, [Num 301; Num 6; Num 91000; Num 820]);
      (4%Z, [Num 302; Num 8; Num 91000; Num 830]) ].

Definition enc_target : Series :=
  [ (1%Z, Int 0); (2%Z, Int 0); (3%Z, Int 1); (4%Z, Int 0) ].

(** Two files without a common timestamp. *)
Definition c4_uber : Dataset :=
  mkDS ["t2m"; "d2m"; "sp"; "ssrd"]
    [ (1%Z, [[Num 298.15]; [Num 293.15]; [Num 91000]; [Num 800]]) ].

Definition c4_sst : Dataset :=
  mkDS ["sst"] [ (2%Z, [[Num 299]]) ].

Definition c4_fs : FS :=
  fun path =>
    if String.eqb path ERA5_FILE then Some c4_uber
    else if String.eqb path SST_FILE then Some c4_sst
    else None.

(** * Vocabulary of the further properties *)

From Stdlib Require Import Sorted.


(** Every row of a frame has one entry per column. *)
Definition well_formed (df : DataFrame) : Prop :=
  Forall (fun r => List.length (snd r) = List.length (columns df)) (rows df).

(** Every grid list of a dataset has one grid per variable. *)
Definition well_formed_dataset (ds : Dataset) : Prop :=
  Forall (fun st => List.length (snd st) = List.length (data_vars ds)) (steps ds).

(** The timestamps of a list increase strictly. *)
Definition increasing (ts : list Time) : Prop := StronglySorted Z.lt ts.

(** An entry that [y_one_hot[i, val] = 1] accepts as [val] on an array
    of width 2, and the row it leaves. *)
Definition index_okb (c : cell) : bool :=
  match c with
  | Int z => ((-2 <=? z) && (z <? 2))%Z
  | _ => false
  end.

Definition hot_row (c : cell) : list cell :=
  match c with
  | Int z => if ((z =? 0) || (z =? -2))%Z then [Num 1; Num 0] else [Num 0; Num 1]
  | _ => [Num 0; Num 0]
  end.

(** The image of a finite entry [x] of a column with least entry [mn]
    and greatest entry [mx] under the fitted scaler. *)
Definition scaled (mn mx x : R) : R :=
  if Rlt_dec (mx - mn) (10 * eps) then (x - mn) * PI else affine_spec mn mx x.

(** The events of a run that save an array. *)
Definition is_saveb (e : event) : bool :=
  match e with
  | EvSave _ _ => true
  | _ => false
  end.

(** * The loader of the trainer *)

(** The arrays of the working directory that are stored as [.npy]
    files; [None] for a path that does not exist. *)
Definition Store : Type := string -> option ndarray.

(** The store after [np.save(path, a)]. *)
Definition save (path : string) (a : ndarray) (st : Store) : Store :=
  fun p => if String.eqb p path then Some a else st p.

(** The store that the saves of a trace leave. *)
Definition written (tr : list event) (st : Store) : Store :=
  fold_left (fun s e => match e with EvSave p a => save p a s | _ => s end) tr st.

(** What the loader does to the working directory, in order. *)
Inductive access : Type :=
| AcExists (path : string)
| AcLoad (path : string).

Definition is_loadb (a : access) : bool :=
  match a with
  | AcLoad _ => true
  | _ => false
  end.

(** [X_train, X_test, y_train, y_test] *)
Definition split : Type := (ndarray * ndarray * ndarray * ndarray)%type.

(** [np.load(path)]; a path that does not exist raises. *)
Definition np_load (st : Store) (path : string) : result ndarray :=
  match st path with
  | Some a => Ok a
  | None => Raise FileNotFoundError
  end.

Section Loader.

(** scikit-learn's [train_test_split(X, y, test_size=0.2,
    random_state=42)]: with the seed fixed, a function of the two
    arrays, which may raise.  It is not modelled further. *)
Variable train_test_split : ndarray -> ndarray -> result split.

(** [load_and_split_data(X_file, y_file)]; the four [None] of Python
    are [None] here.  The [or] of the guard evaluates its second operand
    only when the first file exists. *)
Definition load_and_split_data (X_file y_file : string) (st : Store)
  : list access * result (option split) :=
  match st X_file with
  | None => ([AcExists X_file], Ok None)
  | Some _ =>
      match st y_file with
      | None => ([AcExists X_file; AcExists y_file], Ok None)
      | Some _ =>
          match np_load st X_file with
          | Raise e => ([AcExists X_file; AcExists y_file; AcLoad X_file], Raise e)
          | Ok X =>
              ([AcExists X_file; AcExists y_file; AcLoad X_file; AcLoad y_file],
               y <- np_load st y_file ;;
               s <- train_test_split X y ;;
               Ok (Some s))
          end
      end
  end.

End Loader.

(** The default arguments of the loader. *)
Definition X_FILE : string := "X_quantum_ready.npy".
Definition Y_FILE : string := "y_quantum_ready.npy".

(** * Inputs of the further examples *)

(** A local file with the four variables at timestamps 1, 2, 3 and a
    teleconnection file at timestamps 2, 3, 4, on one-cell grids. *)
Definition x_uber : Dataset :=
  mkDS ["t2m"; "d2m"; "sp"; "ssrd"]
    [ (1%Z, [[Num 290]; [Num 285]; [Num 91000]; [Num 800]]);
      (2%Z, [[Num 291]; [Num 286]; [Num 91100]; [Num 810]]);
      (3%Z, [[Num 292]; [Num 287]; [Num 91200]; [Num 820]]) ].

Definition x_sst : Dataset :=
  mkDS ["sst"] [ (2%Z, [[Num 299]]); (3%Z, [[Num 300]]); (4%Z, [[Num 301]]) ].

Definition x_fs : FS :=
  fun path =>
    if String.eqb path ERA5_FILE then Some x_uber
    else if String.eqb path SST_FILE then Some x_sst
    else None.

(** A joined frame in which timestamp 1 occurs twice and the row of
    timestamp 2 has no sea surface temperature. *)
Definition x_duplicated : DataFrame :=
  mkDF ["t2m"; "relative_humidity"; "sp"; "ssrd"; "sst"]
    [ (1%Z, [Num 290; Num 60; Num 91000; Num 800; Num 299]);
      (1%Z, [Num 291; Num 61; Num 91000; Num 800; Num 299]);
      (2%Z, [Num 292; Num 50; Num 91200; Num 820; NaN]) ].


(** * Properties *)

(** ** Bounds on the exponential *)









(** ** C1: the humidity formula *)


(** ** Frames: selection, join and index *)

Lemma rbind_Ok {A B : Type} (m : result A) (k : A -> result B) (b : B) :
  rbind m k = Ok b -> exists a, m = Ok a /\ k a = Ok b.
Proof.
  destruct m as [a | e]; cbn; intros H; [eauto | discriminate].
Qed.

Lemma has_column_In (c : string) (df : DataFrame) :
  has_column c df = true <-> In c (columns df).
Proof.
  unfold has_column. rewrite existsb_exists. split.
  - intros (x & Hin & Heq). apply String.eqb_eq in Heq. now subst.
  - intros Hin. exists c. split; [exact Hin | apply String.eqb_refl].
Qed.


Lemma getitem_list_Ok (df d : DataFrame) (cs : list string) :
  getitem_list df cs = Ok d ->
  d = mkDF cs
        (map (fun r => (fst r, map (fun c => cell_at c (columns df) (snd r)) cs))
             (rows df))
  /\ Forall (fun c => In c (columns df)) cs.
Proof.
  unfold getitem_list.
  destruct (filter (fun c => negb (has_column c df)) cs) as [|m ms] eqn:Hf;
    intros H; [|discriminate].
  injection H as <-. split; [reflexivity|].
  apply Forall_forall. intros c Hc. apply has_column_In.
  destruct (has_column c df) eqn:Hh; [reflexivity|].
  assert (Hin : In c (filter (fun c => negb (has_column c df)) cs)).
  { apply filter_In. split; [exact Hc | now rewrite Hh]. }
  rewrite Hf in Hin. destruct Hin.
Qed.


Lemma getitem_list_index (df d : DataFrame) (cs : list string) :
  getitem_list df cs = Ok d -> index d = index df.
Proof.
  intros H. apply getitem_list_Ok in H as [-> _].
  unfold index; cbn. rewrite map_map. reflexivity.
Qed.

(** The index of a join: every label of the calling frame, once for
    each row of the other frame with that label. *)
Lemma join_inner_index (l r : DataFrame) (s : string) :
  index (join_inner l r s)
  = flat_map (fun t => map (fun _ => t) (filter (fun x => Z.eqb x t) (index r)))
             (index l).
Proof.
  unfold index, join_inner; cbn [rows].
  induction (rows l) as [|lrow ls IH]; [reflexivity|].
  cbn [flat_map map]. rewrite map_app. f_equal; [|exact IH].
  rewrite map_map; cbn [fst]. clear IH.
  induction (rows r) as [|rrow rs IHr]; [reflexivity|].
  simpl. destruct (Z.eqb (fst rrow) (fst lrow)); simpl; [f_equal|]; exact IHr.
Qed.

Lemma filter_eqb_NoDup (t : Time) (l : list Time) :
  NoDup l ->
  filter (fun x => Z.eqb x t) l = if existsb (Z.eqb t) l then [t] else [].
Proof.
  induction 1 as [|x l Hx Hnd IH]; cbn; [reflexivity|].
  rewrite (Z.eqb_sym t x).
  destruct (Z.eqb x t) eqn:E; cbn.
  - apply Z.eqb_eq in E. subst x. rewrite IH.
    destruct (existsb (Z.eqb t) l) eqn:Ex; [|reflexivity].
    exfalso. apply Hx. apply existsb_exists in Ex as (y & Hy & Hty).
    apply Z.eqb_eq in Hty. now subst.
  - exact IH.
Qed.

Lemma join_inner_index_NoDup (l r : DataFrame) (s : string) :
  NoDup (index r) ->
  index (join_inner l r s)
  = filter (fun t => existsb (Z.eqb t) (index r)) (index l).
Proof.
  intros Hnd. rewrite join_inner_index.
  induction (index l) as [|t ts IH]; cbn; [reflexivity|].
  rewrite IH, (filter_eqb_NoDup t _ Hnd).
  destruct (existsb (Z.eqb t) (index r)); reflexivity.
Qed.

Lemma join_inner_index_In (l r : DataFrame) (s : string) (t : Time) :
  In t (index (join_inner l r s)) <-> In t (index l) /\ In t (index r).
Proof.
  rewrite join_inner_index, in_flat_map. split.
  - intros (x & Hx & Hin). apply in_map_iff in Hin as (y & <- & Hy).
    apply filter_In in Hy as [Hy He]. apply Z.eqb_eq in He. subst y.
    split; assumption.
  - intros [Hl Hr]. exists t. split; [exact Hl|].
    apply in_map_iff. exists t. split; [reflexivity|].
    apply filter_In. split; [exact Hr | apply Z.eqb_refl].
Qed.

Lemma existsb_eqb_In (t : Time) (l : list Time) :
  existsb (Z.eqb t) l = true <-> In t l.
Proof.
  rewrite existsb_exists. split.
  - intros (x & Hx & He). apply Z.eqb_eq in He. now subst.
  - intros H. exists t. split; [exact H | apply Z.eqb_refl].
Qed.

(** ** C7: the join on time *)

(** C7.  When the join of line 50 succeeds, a timestamp is in the index
    of the joined frame exactly when it is in the index of the local
    frame and in the index of the teleconnection frame; with unique
    teleconnection timestamps the joined index is the local index, in
    its order, restricted to the timestamps of the teleconnection frame.
    Local timestamps t1, t2, t3 joined with t2, t3, t4 give t2, t3. *)
Theorem C7_inner_join_on_time (df_uber df_sst df_final : DataFrame) :
  join_step df_uber df_sst = Ok df_final ->
  (forall t, In t (index df_final) <-> In t (index df_uber) /\ In t (index df_sst))
  /\ (NoDup (index df_sst) ->
      index df_final
      = filter (fun t => existsb (Z.eqb t) (index df_sst)) (index df_uber))
  /\ (forall t1 t2 t3 t4 : Time,
         NoDup [t1; t2; t3; t4] ->
         index df_uber = [t1; t2; t3] -> index df_sst = [t2; t3; t4] ->
         index df_final = [t2; t3]).
Proof.
  unfold join_step. intros H.
  apply rbind_Ok in H as (sst & Hsst & H). injection H as <-.
  pose proof (getitem_list_index _ _ _ Hsst) as Hidx.
  split; [|split].
  - intros t. rewrite join_inner_index_In, Hidx. reflexivity.
  - intros Hnd. rewrite join_inner_index_NoDup; rewrite Hidx; [reflexivity | exact Hnd].
  - intros t1 t2 t3 t4 Hnd Hu Hs.
    assert (Hnd' : NoDup (index df_sst)).
    { rewrite Hs. inversion Hnd; subst. assumption. }
    rewrite join_inner_index_NoDup by (rewrite Hidx; exact Hnd').
    rewrite Hidx, Hu, Hs.
    inversion Hnd as [|? ? H1 Hnd1]; subst.
    inversion Hnd1 as [|? ? H2 Hnd2]; subst.
    inversion Hnd2 as [|? ? H3 Hnd3]; subst.
    cbn in H1, H2, H3. cbn.
    rewrite !Z.eqb_refl. cbn.
    assert (E12 : Z.eqb t1 t2 = false) by (apply Z.eqb_neq; intuition).
    assert (E13 : Z.eqb t1 t3 = false) by (apply Z.eqb_neq; intuition).
    assert (E14 : Z.eqb t1 t4 = false) by (apply Z.eqb_neq; intuition).
    rewrite E12, E13, E14. cbn.
    rewrite !orb_true_r. reflexivity.
Qed.

Lemma C7_inner_join_on_time_witness :
  index (join_inner c7_local c7_sst "_ocean") = [2%Z; 3%Z].
Proof.
  assert (H : join_step c7_local c7_sst = Ok (join_inner c7_local c7_sst "_ocean"))
    by reflexivity.
  destruct (C7_inner_join_on_time _ _ _ H) as (_ & _ & Hex).
  apply (Hex 1%Z 2%Z 3%Z 4%Z); [|reflexivity|reflexivity].
  repeat constructor; cbn; lia.
Defined.

(** ** C5: missing input files *)

(** C5.  When one of the two paths does not exist, [preprocess_data]
    raises nothing and returns [None], the value by which the script
    reports the missing input; up to that point it has only asked
    whether paths exist, so no file was opened for parsing.  The
    [__main__] block then ends without saving an array. *)
Theorem C5_missing_input_reported
  (fs : FS) (era5_file sst_file : string) (tr0 : list event) :
  fs era5_file = None \/ fs sst_file = None ->
  exists tr : list event,
    preprocess_data era5_file sst_file fs tr0 = ((tr0 ++ tr)%list, Ok None)
    /\ Forall is_check tr
    /\ (era5_file = ERA5_FILE -> sst_file = SST_FILE ->
        main fs tr0 = ((tr0 ++ tr)%list, Ok tt)).
Proof.
  intros H. unfold main, preprocess_data, bind, path_exists, ret.
  destruct (fs era5_file) as [ds1|] eqn:E1.
  - destruct H as [H|H]; [discriminate|].
    exists [EvExists era5_file; EvExists sst_file].
    repeat split.
    + rewrite H. cbn. now rewrite <- app_assoc.
    + repeat constructor.
    + intros -> ->. rewrite E1, H. cbn. now rewrite <- app_assoc.
  - exists [EvExists era5_file]. repeat split.
    + repeat constructor.
    + intros -> ->. rewrite E1. reflexivity.
Qed.

Lemma C5_missing_input_reported_witness :
  exists tr : list event,
    preprocess_data "a.nc" "b.nc" (fun _ => None) [] = (tr, Ok None)
    /\ Forall is_check tr.
Proof.
  destruct (C5_missing_input_reported (fun _ => None) "a.nc" "b.nc" [])
    as (tr & H1 & H2 & _).
  - left. reflexivity.
  - exists tr. split; [exact H1 | exact H2].
Defined.

(** ** Assignment of a column *)

Lemma is_unique_NoDup (l : list Time) : is_unique l = true <-> NoDup l.
Proof.
  induction l as [|t l IH]; cbn.
  - split; [constructor | reflexivity].
  - rewrite andb_true_iff, negb_true_iff, IH. split.
    + intros [Hn Hnd]. constructor; [|exact Hnd].
      intros Hin. apply existsb_eqb_In in Hin. congruence.
    + intros Hnd. inversion Hnd as [|? ? Hn Hnd']; subst. split; [|exact Hnd'].
      destruct (existsb (Z.eqb t) l) eqn:E; [|reflexivity].
      exfalso. apply Hn. now apply existsb_eqb_In.
Qed.

Lemma lookup_head (t : Time) (v : cell) (s : Series) :
  lookup t ((t, v) :: s) = v.
Proof.
  unfold lookup; cbn. now rewrite Z.eqb_refl.
Qed.

Lemma lookup_tail (t t' : Time) (v : cell) (s : Series) :
  t' <> t -> lookup t ((t', v) :: s) = lookup t s.
Proof.
  intros Hne. unfold lookup; cbn.
  apply Z.eqb_neq in Hne. now rewrite Hne.
Qed.

(** With unique labels, taking the values by position and taking them
    by label agree on rows that carry the labels of the series. *)
Lemma positional_is_lookup (f : cell -> list cell -> list cell)
  (rs : list (Time * list cell)) (s : Series) :
  map fst rs = s_index s -> NoDup (s_index s) ->
  map (fun p : (Time * list cell) * (Time * cell) =>
         (fst (fst p), f (snd (snd p)) (snd (fst p)))) (combine rs s)
  = map (fun r => (fst r, f (lookup (fst r) s) (snd r))) rs.
Proof.
  revert s. induction rs as [|[t r] rs IH]; intros [|[t' v] s] Hidx Hnd;
    cbn in *; try reflexivity; try discriminate.
  injection Hidx as <- Hidx.
  inversion Hnd as [|? ? Hn Hnd']; subst.
  rewrite lookup_head. f_equal.
  rewrite (IH s Hidx Hnd').
  apply map_ext_in. intros [t1 r1] Hin. cbn.
  rewrite lookup_tail; [reflexivity|].
  intros ->. apply Hn. unfold s_index in Hidx. rewrite <- Hidx.
  apply in_map_iff. exists (t1, r1). split; [reflexivity | exact Hin].
Qed.

Lemma ensure_valid_index_same (df : DataFrame) (s : Series) :
  s_index s = index df -> ensure_valid_index df s = df.
Proof.
  unfold ensure_valid_index, index. intros H.
  destruct (rows df) as [|r rs]; [|reflexivity].
  destruct s; [reflexivity | discriminate].
Qed.

(** Assignment when the series has the index of the frame. *)
Lemma setitem_same_index (df : DataFrame) (c : string) (s : Series) :
  s_index s = index df ->
  setitem df c s
  = Ok (mkDF (put_name (columns df) c)
          (map (fun p : (Time * list cell) * (Time * cell) =>
                  (fst (fst p), put (columns df) c (snd (snd p)) (snd (fst p))))
               (combine (rows df) s))).
Proof.
  intros H. unfold setitem. rewrite (ensure_valid_index_same _ _ H).
  destruct (list_eq_dec Z.eq_dec (s_index s) (index df)); [reflexivity | contradiction].
Qed.

(** Assignment of a series with unique labels: every row takes the
    value of its label. *)
Lemma setitem_unique (df : DataFrame) (c : string) (s : Series) :
  NoDup (s_index s) ->
  setitem df c s
  = Ok (mkDF (put_name (columns (ensure_valid_index df s)) c)
          (map (fun r => (fst r,
                          put (columns (ensure_valid_index df s)) c
                              (lookup (fst r) s) (snd r)))
               (rows (ensure_valid_index df s)))).
Proof.
  intros Hnd. unfold setitem.
  set (df' := ensure_valid_index df s).
  destruct (list_eq_dec Z.eq_dec (s_index s) (index df')) as [E|E].
  - f_equal. f_equal.
    apply (positional_is_lookup (put (columns df') c)); [now symmetry | exact Hnd].
  - apply is_unique_NoDup in Hnd. now rewrite Hnd.
Qed.

Lemma ensure_valid_index_rows_empty (df : DataFrame) (s : Series) :
  rows df = [] ->
  rows (ensure_valid_index df s)
  = map (fun p => (fst p, repeat NaN (List.length (columns df)))) s.
Proof.
  unfold ensure_valid_index. intros H. rewrite H.
  destruct s; [exact H | reflexivity].
Qed.

Lemma ensure_valid_index_columns (df : DataFrame) (s : Series) :
  columns (ensure_valid_index df s) = columns df.
Proof.
  unfold ensure_valid_index. destruct (rows df), s; reflexivity.
Qed.

Lemma col_pos_None (c : string) (cols : list string) :
  ~ In c cols -> col_pos c cols = None.
Proof.
  induction cols as [|c' cs IH]; cbn; intros Hn; [reflexivity|].
  destruct (String.eqb c c') eqn:E.
  - apply String.eqb_eq in E. subst. exfalso. apply Hn. now left.
  - rewrite IH; [reflexivity|]. intros H. apply Hn. now right.
Qed.

Lemma getitem_Ok (df : DataFrame) (c : string) (s : Series) :
  getitem df c = Ok s ->
  In c (columns df)
  /\ s = map (fun r => (fst r, cell_at c (columns df) (snd r))) (rows df).
Proof.
  unfold getitem. destruct (has_column c df) eqn:E; intros H; [|discriminate].
  injection H as <-. split; [now apply has_column_In | reflexivity].
Qed.

Lemma getitem_In (df : DataFrame) (c : string) :
  In c (columns df) ->
  getitem df c = Ok (map (fun r => (fst r, cell_at c (columns df) (snd r))) (rows df)).
Proof.
  intros H. unfold getitem. apply has_column_In in H. now rewrite H.
Qed.

Lemma getitem_list_In (df : DataFrame) (cs : list string) :
  Forall (fun c => In c (columns df)) cs ->
  getitem_list df cs
  = Ok (mkDF cs
          (map (fun r => (fst r, map (fun c => cell_at c (columns df) (snd r)) cs))
               (rows df))).
Proof.
  intros Hall. unfold getitem_list.
  destruct (filter (fun c => negb (has_column c df)) cs) as [|m ms] eqn:Hf;
    [reflexivity|].
  assert (Hin : In m (filter (fun c => negb (has_column c df)) cs))
    by (rewrite Hf; now left).
  apply filter_In in Hin as [Hm Hneg].
  rewrite Forall_forall in Hall. apply Hall, has_column_In in Hm.
  rewrite Hm in Hneg. discriminate.
Qed.

Lemma lookup_of_row (g : Time * list cell -> cell)
  (rs : list (Time * list cell)) (r0 : Time * list cell) :
  NoDup (map fst rs) -> In r0 rs ->
  lookup (fst r0) (map (fun r => (fst r, g r)) rs) = g r0.
Proof.
  induction rs as [|r rs IH]; intros Hnd Hin; [destruct Hin|].
  cbn [map] in *. inversion Hnd as [|? ? Hn Hnd']; subst.
  destruct Hin as [->|Hin].
  - apply lookup_head.
  - rewrite lookup_tail; [now apply IH|].
    intros E. apply Hn. rewrite E. now apply in_map.
Qed.

Lemma combine_map_same {A B C : Type} (f : A -> B) (g : A -> C) (l : list A) :
  combine (map f l) (map g l) = map (fun x => (f x, g x)) l.
Proof.
  induction l as [|x l IH]; cbn; [reflexivity | now rewrite IH].
Qed.

Lemma combine_map_r {A B : Type} (h : A -> B) (l : list A) :
  combine l (map h l) = map (fun x => (x, h x)) l.
Proof.
  induction l as [|x l IH]; cbn; [reflexivity | now rewrite IH].
Qed.

Lemma combine_map_l {A B : Type} (g : A -> B) (l : list A) :
  combine (map g l) l = map (fun x => (g x, x)) l.
Proof.
  induction l as [|x l IH]; cbn; [reflexivity | now rewrite IH].
Qed.

(** ** The rows of the dataset *)

Lemma select_step_Ok (df_final df_model : DataFrame) :
  select_step df_final = Ok df_model ->
  df_model = mkDF features (map (feature_row df_final) (kept_rows df_final))
  /\ Forall (fun c => In c (columns df_final)) features.
Proof.
  unfold select_step. intros H.
  apply rbind_Ok in H as (sel & Hsel & H). injection H as <-.
  apply getitem_list_Ok in Hsel as [-> Hall].
  split; [|exact Hall].
  unfold dropna, kept_rows. cbn [columns rows]. f_equal.
  apply (filter_map_swap complete (feature_row df_final)).
Qed.

Lemma target_step_Ok (df_final : DataFrame) (t2m target : Series) :
  getitem df_final "t2m" = Ok t2m ->
  target_step df_final = Ok target ->
  target
  = map (fun r => (fst r, Int (label_cell t2m (t2m_of df_final r))))
        (rows df_final).
Proof.
  intros Ht H. unfold target_step in H. rewrite Ht in H. cbn [rbind] in H.
  injection H as <-. apply getitem_Ok in Ht as [_ Ht].
  unfold astype_int, gt_scalar. rewrite Ht at 1. rewrite !map_map.
  reflexivity.
Qed.

Lemma filter_same_fst {A B : Type} (p : A * B -> bool) (l : list (A * B)) :
  map fst l = map fst (filter p l) -> filter p l = l.
Proof.
  intros H. apply forallb_filter_id, filter_length_forallb.
  apply (f_equal (@List.length A)) in H. rewrite !length_map in H. now symmetry.
Qed.

Lemma put_target (v : cell) (r : list cell) :
  put features "target" v r = r ++ [v].
Proof. reflexivity. Qed.

(** The rows returned by lines 52-62.  When at least one joined row is
    complete, they are the complete joined rows in their order, each
    with its four features and its label.  When no joined row is
    complete, the assignment of line 59 to the frame emptied by
    [dropna] gives the frame one row per joined row again, its four
    features NaN, followed by the label. *)
Lemma label_step_rows (df_final df_model : DataFrame) (t2m : Series) :
  getitem df_final "t2m" = Ok t2m ->
  label_step df_final = Ok df_model ->
  columns df_model = features ++ ["target"]
  /\ (kept_rows df_final <> [] ->
      rows df_model = map (labelled_row df_final t2m) (kept_rows df_final))
  /\ (kept_rows df_final = [] ->
      rows df_model = map (refilled_row df_final t2m) (rows df_final)).
Proof.
  intros Ht2m H. unfold label_step in H.
  apply rbind_Ok in H as (dm & Hsel & H).
  apply rbind_Ok in H as (target & Htgt & H).
  apply select_step_Ok in Hsel as [-> _].
  apply (target_step_Ok _ _ _ Ht2m) in Htgt.
  set (h := fun r : Time * list cell => Int (label_cell t2m (t2m_of df_final r))) in *.
  assert (Hti : s_index target = index df_final).
  { rewrite Htgt. unfold s_index, index. rewrite map_map. reflexivity. }
  unfold setitem in H.
  destruct (kept_rows df_final) as [|k ks] eqn:Hk.
  - (* no complete row: the emptied frame takes the index of the target *)
    set (df' := ensure_valid_index _ _) in H.
    assert (Hrows : rows df' = map (fun p => (fst p, repeat NaN 4)) target)
      by (apply ensure_valid_index_rows_empty; reflexivity).
    assert (Hcols : columns df' = features) by apply ensure_valid_index_columns.
    destruct (list_eq_dec Z.eq_dec (s_index target) (index df')) as [_|Hne].
    + injection H as <-. cbn [columns rows]. rewrite Hcols, Hrows.
      split; [reflexivity|]. split; [intros Hc; now contradiction Hc|]. intros _.
      rewrite combine_map_l, map_map. cbn [fst snd].
      rewrite Htgt, map_map. reflexivity.
    + exfalso. apply Hne. unfold index. rewrite Hrows, map_map. reflexivity.
  - rewrite <- Hk in *.
    assert (Hens : ensure_valid_index
                     (mkDF features (map (feature_row df_final) (kept_rows df_final)))
                     target
                   = mkDF features (map (feature_row df_final) (kept_rows df_final))).
    { unfold ensure_valid_index. cbn [rows]. rewrite Hk. reflexivity. }
    rewrite Hens in H. cbn [columns rows index] in H.
    assert (Hkne : kept_rows df_final <> []) by (rewrite Hk; discriminate).
    destruct (list_eq_dec Z.eq_dec (s_index target) _) as [Heq|Hne].
    + (* no row was dropped: the values are taken by position *)
      injection H as <-. cbn [columns rows].
      split; [reflexivity|]. split; [|intros Hc; now contradiction Hc]. intros _.
      unfold index in Heq, Hti. cbn [rows] in Heq.
      rewrite Hti, map_map in Heq. cbn [fst feature_row] in Heq.
      assert (Hall : kept_rows df_final = rows df_final)
        by (apply filter_same_fst; exact Heq).
      rewrite Hall, Htgt, combine_map_same, map_map. reflexivity.
    + (* rows were dropped: the values are taken by label *)
      destruct (is_unique (s_index target)) eqn:Hu; [|discriminate].
      injection H as <-. cbn [columns rows].
      split; [reflexivity|]. split; [|intros Hc; now contradiction Hc]. intros _.
      rewrite map_map. apply map_ext_in. intros r Hr. cbn [fst snd feature_row].
      unfold labelled_row. cbn [fst snd feature_row]. f_equal.
      rewrite put_target. f_equal. f_equal.
      rewrite Htgt. apply (lookup_of_row h).
      * apply is_unique_NoDup. change (is_unique (index df_final) = true).
        rewrite <- Hti. exact Hu.
      * unfold kept_rows in Hr. now apply filter_In in Hr as [Hr _].
Qed.

(** Lines 52-62 succeed on a joined frame with unique timestamps that
    has the four feature columns and the temperature column. *)
Lemma label_step_succeeds (df_final : DataFrame) :
  NoDup (index df_final) ->
  Forall (fun c => In c (columns df_final)) features ->
  In "t2m" (columns df_final) ->
  exists df_model, label_step df_final = Ok df_model.
Proof.
  intros Hnd Hall Ht. unfold label_step, select_step, target_step.
  rewrite (getitem_list_In _ _ Hall), (getitem_In _ _ Ht). cbn [rbind].
  rewrite setitem_unique; [eauto|].
  unfold s_index, astype_int, gt_scalar. rewrite !map_map. cbn [fst].
  exact Hnd.
Qed.

(** ** Mean, standard deviation and threshold *)

Lemma fold_Rplus_acc (l : list R) (a : R) :
  fold_left Rplus l a = a + fold_left Rplus l 0.
Proof.
  revert a. induction l as [|x l IH]; intros a; cbn.
  - lra.
  - rewrite (IH (a + x)), (IH (0 + x)). lra.
Qed.

Lemma Rsum_cons (x : R) (l : list R) : Rsum (x :: l) = x + Rsum l.
Proof.
  unfold Rsum. cbn. rewrite fold_Rplus_acc. lra.
Qed.

Lemma Rsum_nil : Rsum [] = 0.
Proof. reflexivity. Qed.

Lemma Rsum_squares_nonneg (f : R -> R) (l : list R) :
  0 <= Rsum (map (fun x => f x ^ 2) l).
Proof.
  induction l as [|x l IH]; cbn [map].
  - rewrite Rsum_nil. lra.
  - rewrite Rsum_cons. pose proof (pow2_ge_0 (f x)). lra.
Qed.

Lemma fgt_Num (c : cell) (y : R) :
  (c >? Num y)%cell = true <-> exists x, fval c = Some x /\ x > y.
Proof.
  unfold fgt. cbn [fval]. destruct (fval c) as [x|].
  - destruct (Rgt_dec x y) as [H|H]; split.
    + intros _. eauto.
    + reflexivity.
    + discriminate.
    + intros (x' & E & Hx). injection E as <-. contradiction.
  - split; [discriminate | intros (x & E & _); discriminate].
Qed.

Lemma fgt_NaN_r (c : cell) : (c >? NaN)%cell = false.
Proof.
  unfold fgt. cbn. now destruct (fval c).
Qed.

(** The threshold of line 58: with at least two finite temperatures it
    is the mean plus twice the sample standard deviation; with fewer it
    is NaN. *)
Lemma threshold_value (t2m : Series) :
  let v := valid (s_values t2m) in
  ((2 <= List.length v)%nat ->
   threshold t2m = Num (average v + 2 * sample_std v))
  /\ ((List.length v < 2)%nat -> threshold t2m = NaN).
Proof.
  intros v. unfold threshold, mean, std, nanstd, nanvar, nanmean.
  fold v. split; intros Hlen.
  - destruct (Nat.leb_spec (List.length v) 1) as [Hle|Hgt]; [lia|].
    destruct v as [|x0 v0] eqn:Hv; [cbn in Hlen; lia|]. rewrite <- Hv in *.
    unfold np_sqrt. cbn [fval].
    match goal with |- context [Rlt_dec ?a 0] => destruct (Rlt_dec a 0) as [Hneg|_] end.
    + exfalso.
      pose proof (Rsum_squares_nonneg (fun x => Rsum v / INR (List.length v) - x) v) as Hs.
      assert (Hpos : 0 < INR (List.length v - 1)) by (apply lt_0_INR; lia).
      apply Rlt_not_le in Hneg. apply Hneg.
      apply Rmult_le_pos; [exact Hs | left; now apply Rinv_0_lt_compat].
    + reflexivity.
  - destruct (Nat.leb_spec (List.length v) 1) as [Hle|Hgt]; [|lia].
    cbn. now destruct v.
Qed.

(** ** C2: the threshold label *)

Lemma label_cell_cases (t2m : Series) (c : cell) :
  label_cell t2m c = 1%Z \/ label_cell t2m c = 0%Z.
Proof.
  unfold label_cell. destruct (fgt _ _); [now left | now right].
Qed.

Lemma label_cell_one_iff (t2m : Series) (c : cell) :
  let v := valid (s_values t2m) in
  label_cell t2m c = 1%Z
  <-> (2 <= List.length v)%nat
      /\ exists x, fval c = Some x /\ x > average v + 2 * sample_std v.
Proof.
  intros v. unfold label_cell.
  destruct (threshold_value t2m) as [Hge Hlt]. fold v in Hge, Hlt.
  destruct (le_lt_dec 2 (List.length v)) as [H2|H2].
  - rewrite (Hge H2).
    destruct (fgt c (Num (average v + 2 * sample_std v))) eqn:E.
    + apply fgt_Num in E. split; [intros _; split; assumption | reflexivity].
    + split; [discriminate|]. intros [_ Hx]. apply fgt_Num in Hx. congruence.
  - rewrite (Hlt H2), fgt_NaN_r. split; [discriminate | intros [H _]; lia].
Qed.

(** Every row of the dataset comes from a joined row of the same
    timestamp and ends with the label of that row's temperature. *)
Lemma label_step_row_origin (df_final df_model : DataFrame) (t2m : Series)
  (t : Time) (r : list cell) :
  getitem df_final "t2m" = Ok t2m ->
  label_step df_final = Ok df_model ->
  In (t, r) (rows df_model) ->
  exists (r0 : Time * list cell) (fs : list cell),
    In r0 (rows df_final) /\ fst r0 = t
    /\ r = fs ++ [Int (label_cell t2m (t2m_of df_final r0))]
    /\ (fs = snd (feature_row df_final r0) \/ fs = [NaN; NaN; NaN; NaN]).
Proof.
  intros Ht2m H Hin.
  destruct (label_step_rows _ _ _ Ht2m H) as (_ & Hsome & Hnone).
  destruct (kept_rows df_final) as [|k ks] eqn:Hk.
  - rewrite (Hnone eq_refl) in Hin.
    apply in_map_iff in Hin as (r0 & E & Hr0). injection E as <- <-.
    exists r0, [NaN; NaN; NaN; NaN]. repeat split; [exact Hr0 | now right].
  - rewrite Hsome in Hin by discriminate.
    apply in_map_iff in Hin as (r0 & E & Hr0). injection E as <- <-.
    exists r0, (snd (feature_row df_final r0)).
    rewrite <- Hk in Hr0. unfold kept_rows in Hr0.
    apply filter_In in Hr0 as [Hr0 _].
    repeat split; [exact Hr0 | now left].
Qed.

(** C2 (amended).  Every row of the dataset is the row of a joined row
    with the same timestamp: four features followed by a label.  The
    label is 1 exactly when the temperature of that joined row is
    finite and strictly exceeds the mean plus twice the sample standard
    deviation (divisor [n - 1]) of the finite temperatures of all the
    joined rows, of which there must be at least two; otherwise the
    label is 0, in particular for a temperature equal to the
    threshold. *)
Theorem C2_label_threshold
  (df_final df_model : DataFrame) (t2m : Series) (t : Time) (r : list cell) :
  getitem df_final "t2m" = Ok t2m ->
  label_step df_final = Ok df_model ->
  In (t, r) (rows df_model) ->
  let v := valid (s_values t2m) in
  exists (r0 : Time * list cell) (fs : list cell) (l : Z),
    In r0 (rows df_final) /\ fst r0 = t
    /\ r = fs ++ [Int l] /\ List.length fs = 4%nat
    /\ (l = 1%Z \/ l = 0%Z)
    /\ (l = 1%Z <->
        (2 <= List.length v)%nat
        /\ exists x, fval (t2m_of df_final r0) = Some x
                     /\ x > average v + 2 * sample_std v)
    /\ (fval (t2m_of df_final r0) = Some (average v + 2 * sample_std v) ->
        l = 0%Z).
Proof.
  intros Ht2m H Hin v.
  destruct (label_step_row_origin _ _ _ _ _ Ht2m H Hin)
    as (r0 & fs & Hr0 & Ht & -> & Hfs).
  exists r0, fs, (label_cell t2m (t2m_of df_final r0)).
  split; [exact Hr0|]. split; [exact Ht|]. split; [reflexivity|].
  split; [destruct Hfs as [-> | ->]; reflexivity|].
  split; [apply label_cell_cases|]. split; [apply label_cell_one_iff|].
  intros Heq.
  destruct (label_cell_cases t2m (t2m_of df_final r0)) as [H1|H0]; [|exact H0].
  apply label_cell_one_iff in H1 as (_ & x & Hx & Hgt). fold v in Hgt.
  rewrite Heq in Hx. injection Hx as <-. lra.
Qed.

Ltac stat_simpl :=
  unfold average, sample_std, population_std_spec, Rsum;
  cbn [fold_left map List.length Nat.sub INR pow].

Lemma c2_average : average c2_temperatures = 282.
Proof.
  unfold c2_temperatures. stat_simpl. lra.
Qed.

Lemma c2_sample_std : sample_std c2_temperatures = 4.
Proof.
  unfold sample_std. rewrite c2_average.
  unfold c2_temperatures. stat_simpl.
  match goal with |- sqrt ?v = _ => replace v with (4 * 4) by lra end.
  apply sqrt_square. lra.
Qed.

Lemma c2_population_std : population_std_spec c2_temperatures < 4.
Proof.
  unfold population_std_spec. rewrite c2_average.
  unfold c2_temperatures. stat_simpl.
  apply Rlt_le_trans with (sqrt (4 * 4));
    [apply sqrt_lt_1; lra | rewrite sqrt_square; lra].
Qed.

Lemma c2_getitem : getitem c2_final "t2m" = Ok c2_t2m.
Proof. reflexivity. Qed.

Lemma c2_index_NoDup : NoDup (index c2_final).
Proof. apply is_unique_NoDup. reflexivity. Qed.

Lemma c2_label_290 : label_cell c2_t2m (Num 290) = 0%Z.
Proof.
  destruct (label_cell_cases c2_t2m (Num 290)) as [H|H]; [|exact H].
  apply label_cell_one_iff in H as (_ & x & Hx & Hgt).
  change (valid (s_values c2_t2m)) with c2_temperatures in Hgt.
  rewrite c2_average, c2_sample_std in Hgt.
  cbn in Hx. injection Hx as <-. lra.
Qed.

Lemma c2_run :
  exists df_model,
    label_step c2_final = Ok df_model
    /\ In (6%Z, [Num 299; Num 50; Num 91000; Num 800; Int 0]) (rows df_model).
Proof.
  destruct (label_step_succeeds c2_final c2_index_NoDup) as [dm Hdm].
  - unfold features, c2_final; cbn. repeat constructor; tauto.
  - cbn. tauto.
  - exists dm. split; [exact Hdm|].
    destruct (label_step_rows _ _ _ c2_getitem Hdm) as (_ & Hrows & _).
    rewrite Hrows by discriminate.
    apply in_map_iff.
    exists (6%Z, [Num 290; Num 275; Num 91000; Num 800; Num 50; Num 299]). split.
    + unfold labelled_row, t2m_of. cbn [fst snd feature_row].
      change (cell_at "t2m" (columns c2_final)
                [Num 290; Num 275; Num 91000; Num 800; Num 50; Num 299])
        with (Num 290).
      rewrite c2_label_290. reflexivity.
    + unfold kept_rows. cbn. tauto.
Qed.

(** C2, as stated, fails: in [c2_final] the row of timestamp 6 has the
    temperature 290, above the mean plus twice the population standard
    deviation of the six temperatures, and its label is 0. *)
Lemma C2_population_std_counterexample :
  exists df_model,
    label_step c2_final = Ok df_model
    /\ In (6%Z, [Num 299; Num 50; Num 91000; Num 800; Int 0]) (rows df_model)
    /\ getitem c2_final "t2m" = Ok c2_t2m
    /\ lookup 6%Z c2_t2m = Num 290
    /\ valid (s_values c2_t2m) = c2_temperatures
    /\ 290 > average c2_temperatures + 2 * population_std_spec c2_temperatures.
Proof.
  destruct c2_run as (dm & Hdm & Hin). exists dm.
  repeat split; try assumption; try reflexivity.
  rewrite c2_average. pose proof c2_population_std. lra.
Qed.

Lemma C2_label_threshold_witness :
  exists df_model (r0 : Time * list cell) (fs : list cell) (l : Z),
    label_step c2_final = Ok df_model
    /\ In r0 (rows c2_final) /\ fst r0 = 6%Z
    /\ [Num 299; Num 50; Num 91000; Num 800; Int 0] = fs ++ [Int l]
    /\ (l = 1%Z <->
        (2 <= List.length (valid (s_values c2_t2m)))%nat
        /\ exists x, fval (t2m_of c2_final r0) = Some x
                     /\ x > average (valid (s_values c2_t2m))
                            + 2 * sample_std (valid (s_values c2_t2m))).
Proof.
  destruct c2_run as (dm & Hdm & Hin).
  destruct (C2_label_threshold c2_final dm c2_t2m 6%Z _ c2_getitem Hdm Hin)
    as (r0 & fs & l & Hr0 & Ht & Hr & _ & _ & Hiff & _).
  exists dm, r0, fs, l.
  split; [exact Hdm|]. split; [exact Hr0|]. split; [exact Ht|].
  split; [exact Hr | exact Hiff].
Defined.

(** ** C10: a missing temperature *)

(** The humidity computed from a missing temperature is missing: in a
    run that computes the humidity, a row without temperature does not
    pass [dropna]. *)
Lemma relative_humidity_missing (d2m : cell) :
  calculate_relative_humidity NaN d2m = NaN.
Proof.
  unfold calculate_relative_humidity, fmul, fdiv, fsub, fadd, np_exp, lift1, lift2.
  cbn [fval]. destruct (fval d2m); reflexivity.
Qed.

Lemma label_cell_missing (t2m : Series) : label_cell t2m NaN = 0%Z.
Proof. reflexivity. Qed.

(** C10.  A joined row whose four selected features are present and
    whose temperature is NaN is a row of the dataset, and its label
    is 0. *)
Theorem C10_missing_temperature_labelled_0
  (df_final df_model : DataFrame) (t2m : Series) (r0 : Time * list cell) :
  getitem df_final "t2m" = Ok t2m ->
  label_step df_final = Ok df_model ->
  In r0 (rows df_final) ->
  complete (feature_row df_final r0) = true ->
  t2m_of df_final r0 = NaN ->
  label_cell t2m (t2m_of df_final r0) = 0%Z
  /\ In (fst r0, snd (feature_row df_final r0) ++ [Int 0]) (rows df_model).
Proof.
  intros Ht2m H Hin Hc Hnan.
  split; [rewrite Hnan; apply label_cell_missing|].
  assert (Hk : In r0 (kept_rows df_final)).
  { unfold kept_rows. apply filter_In. split; assumption. }
  destruct (label_step_rows _ _ _ Ht2m H) as (_ & Hrows & _).
  rewrite Hrows by (intros E; rewrite E in Hk; destruct Hk).
  apply in_map_iff. exists r0. split; [|exact Hk].
  unfold labelled_row. now rewrite Hnan, label_cell_missing.
Qed.

Lemma C10_missing_temperature_labelled_0_witness :
  exists df_model,
    label_step c10_final = Ok df_model
    /\ In (2%Z, [Num 300; Num 55; Num 91100; Num 810; Int 0]) (rows df_model).
Proof.
  assert (Hnd : NoDup (index c10_final)) by (apply is_unique_NoDup; reflexivity).
  destruct (label_step_succeeds c10_final Hnd) as [dm Hdm].
  - unfold features, c10_final; cbn. repeat constructor; tauto.
  - cbn. tauto.
  - exists dm. split; [exact Hdm|].
    apply (C10_missing_temperature_labelled_0 c10_final dm _
             (2%Z, [NaN; Num 55; Num 91100; Num 810; Num 300])
             eq_refl Hdm).
    + cbn. tauto.
    + reflexivity.
    + reflexivity.
Defined.

(** ** C6: feature selection and row drop *)

(** When at least one joined row is complete, the dataset has the four
    features in their order followed by the target, its rows are the
    complete joined rows, and their number is the number of joined rows
    minus the number of rows with a missing feature. *)
Lemma label_step_row_count (df_final df_model : DataFrame) (t2m : Series) :
  getitem df_final "t2m" = Ok t2m ->
  label_step df_final = Ok df_model ->
  kept_rows df_final <> [] ->
  columns df_model = ["sst"; "relative_humidity"; "sp"; "ssrd"; "target"]
  /\ map (fun r => (fst r, firstn 4 (snd r))) (rows df_model)
     = map (feature_row df_final) (kept_rows df_final)
  /\ (List.length (rows df_model) <= List.length (rows df_final))%nat
  /\ List.length (rows df_model)
     = (List.length (rows df_final) - List.length (dropped_rows df_final))%nat.
Proof.
  intros Ht2m H Hne.
  destruct (label_step_rows _ _ _ Ht2m H) as (Hcols & Hrows & _).
  specialize (Hrows Hne).
  assert (Hlen : List.length (rows df_model) = List.length (kept_rows df_final)).
  { rewrite Hrows. apply length_map. }
  pose proof (filter_length (fun r => complete (feature_row df_final r))
                            (rows df_final)) as Hf.
  split; [exact Hcols|]. split; [|unfold kept_rows, dropped_rows in *; lia].
  rewrite Hrows, map_map. apply map_ext. intros r. reflexivity.
Qed.

(** C6 on [c6_uber] and [c6_sst]: the join has one row, its sea surface
    temperature is missing, so no joined row passes [dropna]; yet the
    dataset returned has one row, whose four features are NaN. *)
Theorem C6_incomplete_rows_returned :
  exists df_final df_model,
    joined_frame c6_uber c6_sst = Ok df_final
    /\ build_dataset c6_uber c6_sst = Ok df_model
    /\ preprocess_data ERA5_FILE SST_FILE c6_fs []
       = ([EvExists ERA5_FILE; EvExists SST_FILE; EvOpen ERA5_FILE; EvOpen SST_FILE],
          Ok (Some df_model))
    /\ List.length (rows df_final) = 1%nat
    /\ List.length (dropped_rows df_final) = 1%nat
    /\ kept_rows df_final = []
    /\ df_model
       = mkDF ["sst"; "relative_humidity"; "sp"; "ssrd"; "target"]
              [ (1%Z, [NaN; NaN; NaN; NaN; Int 0]) ].
Proof.
  eexists. eexists.
  split; [reflexivity|].
  split; [reflexivity|].
  repeat split; reflexivity.
Qed.

(** ** C9: humidity without its source variables *)

(** Lines 41-42 when both temperatures are columns: every row receives
    the humidity of its own two temperatures. *)
Lemma add_relative_humidity_present (df_uber : DataFrame) :
  In "t2m" (columns df_uber) -> In "d2m" (columns df_uber) ->
  add_relative_humidity df_uber
  = Ok (mkDF (put_name (columns df_uber) "relative_humidity")
          (map (fun r =>
                  (fst r,
                   put (columns df_uber) "relative_humidity"
                       (calculate_relative_humidity
                          (cell_at "t2m" (columns df_uber) (snd r))
                          (cell_at "d2m" (columns df_uber) (snd r)))
                       (snd r)))
               (rows df_uber))).
Proof.
  intros Ht Hd. unfold add_relative_humidity.
  rewrite (proj2 (has_column_In _ _) Ht), (proj2 (has_column_In _ _) Hd).
  cbn [andb]. rewrite (getitem_In _ _ Ht), (getitem_In _ _ Hd). cbn [rbind].
  unfold series_map2. rewrite combine_map_same, map_map. cbn [fst snd].
  rewrite setitem_same_index
    by (unfold s_index, index; rewrite map_map; reflexivity).
  rewrite combine_map_r, map_map. reflexivity.
Qed.

(** Lines 41-42 when a temperature is not a column: nothing is added. *)
Lemma add_relative_humidity_absent (df_uber : DataFrame) :
  ~ (In "t2m" (columns df_uber) /\ In "d2m" (columns df_uber)) ->
  add_relative_humidity df_uber = Ok df_uber.
Proof.
  intros H. unfold add_relative_humidity.
  destruct (has_column "t2m" df_uber) eqn:Et;
    destruct (has_column "d2m" df_uber) eqn:Ed; try reflexivity.
  exfalso. apply H. split; now apply has_column_In.
Qed.





(** ** The one-hot loop *)

Lemma nth_error_app_length {A : Type} (l1 l2 : list A) (x : A) :
  nth_error (l1 ++ x :: l2) (List.length l1) = Some x.
Proof.
  induction l1 as [|a l1 IH]; cbn; [reflexivity | exact IH].
Qed.

Lemma replace_nth_app_length {A : Type} (l1 l2 : list A) (x y : A) :
  replace_nth (List.length l1) y (l1 ++ x :: l2) = (l1 ++ y :: l2)%list.
Proof.
  induction l1 as [|a l1 IH]; cbn; [reflexivity | now rewrite IH].
Qed.

Lemma assign_hot_binary (done rest : ndarray) (val : cell) :
  is_binary val ->
  assign_hot (done ++ [Num 0; Num 0] :: rest) (List.length done) val
  = Ok (done ++ one_hot_spec (label_of val) :: rest)%list.
Proof.
  intros [-> | ->]; unfold assign_hot, set2; cbn [Z.leb Z.ltb Z.compare andb];
    rewrite nth_error_app_length, replace_nth_app_length; reflexivity.
Qed.

(** Loop invariant: after [i] iterations the first [i] rows are the
    one-hot rows of the first [i] labels and the other rows are zero. *)
Lemma one_hot_loop_binary (target : list cell) (done : ndarray) :
  Forall is_binary target ->
  one_hot_loop target (List.length done) (done ++ np_zeros (List.length target) 2)
  = Ok (done ++ map (fun c => one_hot_spec (label_of c)) target)%list.
Proof.
  intros H. revert done. induction H as [|val target Hval Hall IH]; intros done.
  - reflexivity.
  - cbn [one_hot_loop List.length np_zeros repeat map].
    fold (np_zeros (List.length target) 2).
    rewrite (assign_hot_binary done _ val Hval). cbn [rbind].
    specialize (IH (done ++ [one_hot_spec (label_of val)])%list).
    rewrite length_app in IH. cbn [List.length] in IH.
    rewrite Nat.add_1_r in IH. rewrite <- !app_assoc in IH. exact IH.
Qed.

Lemma one_hot_spec_row (l : Z) :
  exists a b : R,
    one_hot_spec l = [Num a; Num b] /\ a + b = 1
    /\ (l = 0%Z -> a = 1 /\ b = 0)
    /\ (l = 1%Z -> a = 0 /\ b = 1).
Proof.
  unfold one_hot_spec. destruct (Z.eqb_spec l 0) as [->|Hne].
  - exists 1, 0. repeat split; try lra; discriminate.
  - exists 0, 1. repeat split; try lra; contradiction.
Qed.

(** ** The scaler *)

Lemma eps_pos : 0 < eps.
Proof.
  unfold eps. apply Rinv_0_lt_compat. apply pow_lt. lra.
Qed.

Lemma fold_Rmin_spec (xs : list R) (x : R) :
  In (fold_left Rmin xs x) (x :: xs)
  /\ forall y, In y (x :: xs) -> fold_left Rmin xs x <= y.
Proof.
  revert x. induction xs as [|a xs IH]; intros x; cbn [fold_left].
  - split; [now left|]. intros y [<-|[]]. lra.
  - destruct (IH (Rmin x a)) as [Hin Hle]. split.
    + destruct Hin as [E|Hin].
      * rewrite <- E. unfold Rmin. destruct (Rle_dec x a); [now left | right; now left].
      * right. now right.
    + intros y Hy.
      assert (Hm : fold_left Rmin xs (Rmin x a) <= Rmin x a) by (apply Hle; now left).
      destruct Hy as [<-|[<-|Hy]].
      * pose proof (Rmin_l x a). lra.
      * pose proof (Rmin_r x a). lra.
      * apply Hle. now right.
Qed.

Lemma fold_Rmax_spec (xs : list R) (x : R) :
  In (fold_left Rmax xs x) (x :: xs)
  /\ forall y, In y (x :: xs) -> y <= fold_left Rmax xs x.
Proof.
  revert x. induction xs as [|a xs IH]; intros x; cbn [fold_left].
  - split; [now left|]. intros y [<-|[]]. lra.
  - destruct (IH (Rmax x a)) as [Hin Hle]. split.
    + destruct Hin as [E|Hin].
      * rewrite <- E. unfold Rmax. destruct (Rle_dec x a); [right; now left | now left].
      * right. now right.
    + intros y Hy.
      assert (Hm : Rmax x a <= fold_left Rmax xs (Rmax x a)) by (apply Hle; now left).
      destruct Hy as [<-|[<-|Hy]].
      * pose proof (Rmax_l x a). lra.
      * pose proof (Rmax_r x a). lra.
      * apply Hle. now right.
Qed.

(** [nanmin] and [nanmax] give the least and the greatest finite entry. *)
Lemma nanmin_spec (col : list cell) (mn : R) :
  nanmin col = Num mn ->
  In mn (valid col) /\ forall x, In x (valid col) -> mn <= x.
Proof.
  unfold nanmin. destruct (valid col) as [|x xs]; intros H; [discriminate|].
  injection H as <-. apply fold_Rmin_spec.
Qed.

Lemma nanmax_spec (col : list cell) (mx : R) :
  nanmax col = Num mx ->
  In mx (valid col) /\ forall x, In x (valid col) -> x <= mx.
Proof.
  unfold nanmax. destruct (valid col) as [|x xs]; intros H; [discriminate|].
  injection H as <-. apply fold_Rmax_spec.
Qed.

(** The image of a finite entry under the fitted scaler of its column. *)
Lemma transform_regular (col : list cell) (mn mx : R) (c : cell) (x : R) :
  nanmin col = Num mn -> nanmax col = Num mx -> 10 * eps <= mx - mn ->
  fval c = Some x ->
  transform_cell c (fit_column (Num 0) np_pi col) = Num (affine_spec mn mx x).
Proof.
  intros Hmn Hmx Hr Hx. unfold transform_cell, fit_column.
  rewrite Hmn, Hmx. cbn [fst snd]. unfold np_pi.
  unfold fmul, fadd, fsub, fdiv, lift2, handle_zeros_in_scale. cbn [fval].
  destruct (Rlt_dec (mx - mn) (10 * eps)) as [Hlt|_]; [lra|].
  cbn [fval]. rewrite Hx. cbn [fval].
  f_equal. unfold affine_spec. pose proof eps_pos. field. lra.
Qed.

Lemma transform_constant (col : list cell) (mn mx : R) (c : cell) (x : R) :
  nanmin col = Num mn -> nanmax col = Num mx -> mx - mn < 10 * eps ->
  fval c = Some x ->
  transform_cell c (fit_column (Num 0) np_pi col) = Num ((x - mn) * PI).
Proof.
  intros Hmn Hmx Hr Hx. unfold transform_cell, fit_column.
  rewrite Hmn, Hmx. cbn [fst snd]. unfold np_pi.
  unfold fmul, fadd, fsub, fdiv, lift2, handle_zeros_in_scale. cbn [fval].
  destruct (Rlt_dec (mx - mn) (10 * eps)) as [_|Hge]; [|lra].
  cbn [fval]. rewrite Hx. cbn [fval].
  f_equal. field.
Qed.

(** ** The encoder on a dataset *)

Lemma prepare_for_quantum_Ok (df : DataFrame) (X y : ndarray) :
  prepare_for_quantum df = Ok (X, y) ->
  exists feats target,
    drop_column df "target" = Ok feats
    /\ getitem df "target" = Ok target
    /\ fit_transform (Num 0) np_pi feats = Ok X
    /\ one_hot_loop (s_values target) 0 (np_zeros (List.length target) 2) = Ok y.
Proof.
  unfold prepare_for_quantum. intros H.
  apply rbind_Ok in H as (feats & Hf & H).
  apply rbind_Ok in H as (target & Ht & H).
  apply rbind_Ok in H as (X' & HX & H).
  apply rbind_Ok in H as (y' & Hy & H).
  injection H as <- <-. exists feats, target. repeat split; assumption.
Qed.

Lemma fit_transform_Ok (lo hi : cell) (feats : DataFrame) (X : ndarray) :
  fit_transform lo hi feats = Ok X ->
  rows feats <> [] /\ columns feats <> []
  /\ X = transform (fit lo hi (List.length (columns feats)) (map snd (rows feats)))
                   (map snd (rows feats)).
Proof.
  unfold fit_transform.
  destruct (rows feats) as [|r rs]; [discriminate|].
  destruct (columns feats) as [|c cs]; [discriminate|].
  intros H. injection H as <-. repeat split; discriminate.
Qed.

Lemma fit_transform_nonempty (lo hi : cell) (feats : DataFrame) :
  rows feats <> [] -> columns feats <> [] ->
  fit_transform lo hi feats
  = Ok (transform (fit lo hi (List.length (columns feats)) (map snd (rows feats)))
                  (map snd (rows feats))).
Proof.
  unfold fit_transform. intros Hr Hc.
  destruct (rows feats) as [|r rs]; [contradiction|].
  destruct (columns feats) as [|c cs]; [contradiction|]. reflexivity.
Qed.

Lemma nth_error_combine {A B : Type} (l1 : list A) (l2 : list B) (j : nat)
  (a : A) (b : B) :
  nth_error l1 j = Some a -> nth_error l2 j = Some b ->
  nth_error (combine l1 l2) j = Some (a, b).
Proof.
  revert l2 j. induction l1 as [|x l1 IH]; intros [|y l2] [|j] H1 H2;
    cbn in *; try discriminate.
  - congruence.
  - now apply IH.
Qed.

Lemma nth_error_fit (lo hi : cell) (n : nat) (M : ndarray) (j : nat) :
  (j < n)%nat ->
  nth_error (fit lo hi n M) j = Some (fit_column lo hi (column M j)).
Proof.
  intros Hj. unfold fit. rewrite nth_error_map, nth_error_seq.
  apply Nat.ltb_lt in Hj. now rewrite Hj.
Qed.

(** The entry of row [i] and column [j] of the scaled matrix. *)
Lemma transform_entry (lo hi : cell) (n : nat) (M : ndarray)
  (i j : nat) (r : list cell) (c : cell) :
  (j < n)%nat ->
  nth_error M i = Some r -> nth_error r j = Some c ->
  exists xr,
    nth_error (transform (fit lo hi n M) M) i = Some xr
    /\ nth_error xr j = Some (transform_cell c (fit_column lo hi (column M j))).
Proof.
  intros Hj Hr Hc. unfold transform at 1.
  rewrite nth_error_map, Hr. cbn [option_map]. eexists. split; [reflexivity|].
  rewrite nth_error_map.
  rewrite (nth_error_combine _ _ _ _ _ Hc (nth_error_fit lo hi n M j Hj)).
  reflexivity.
Qed.

Lemma nth_error_rows_snd (rs : list (Time * list cell)) (i : nat)
  (r : Time * list cell) :
  nth_error rs i = Some r -> nth_error (map snd rs) i = Some (snd r).
Proof.
  intros H. rewrite nth_error_map, H. reflexivity.
Qed.

Lemma nth_error_column (M : ndarray) (i j : nat) (r : list cell) (c : cell) :
  nth_error M i = Some r -> nth_error r j = Some c ->
  nth_error (column M j) i = Some c.
Proof.
  intros Hr Hc. unfold column. rewrite nth_error_map, Hr. cbn [option_map].
  f_equal. now apply nth_error_nth.
Qed.

Lemma valid_In (col : list cell) (c : cell) (x : R) :
  In c col -> fval c = Some x -> In x (valid col).
Proof.
  induction col as [|c' col IH]; intros Hin Hx; [destruct Hin|].
  cbn [valid]. destruct Hin as [->|Hin].
  - rewrite Hx. now left.
  - destruct (fval c'); [right|]; now apply IH.
Qed.





Lemma drop_column_Ok (df feats : DataFrame) (c : string) :
  drop_column df c = Ok feats ->
  exists i, col_pos c (columns df) = Some i
    /\ columns feats = remove_nth i (columns df)
    /\ rows feats = map (fun r => (fst r, remove_nth i (snd r))) (rows df).
Proof.
  unfold drop_column. destruct (col_pos c (columns df)) as [i|]; intros H;
    [|discriminate].
  injection H as <-. exists i. repeat split.
Qed.

Lemma drop_column_length (df feats : DataFrame) (c : string) :
  drop_column df c = Ok feats ->
  List.length (rows feats) = List.length (rows df).
Proof.
  intros H. apply drop_column_Ok in H as (i & _ & _ & ->). apply length_map.
Qed.

Lemma getitem_length (df : DataFrame) (c : string) (s : Series) :
  getitem df c = Ok s -> List.length s = List.length (rows df).
Proof.
  intros H. apply getitem_Ok in H as [_ ->]. apply length_map.
Qed.

(** The encoder succeeds on a frame with a binary target, at least one
    row and at least one feature column. *)
Lemma prepare_for_quantum_succeeds (df feats : DataFrame) (target : Series) :
  drop_column df "target" = Ok feats ->
  getitem df "target" = Ok target ->
  rows df <> [] -> columns feats <> [] ->
  Forall is_binary (s_values target) ->
  prepare_for_quantum df
  = Ok (transform (fit (Num 0) np_pi (List.length (columns feats))
                       (map snd (rows feats)))
                  (map snd (rows feats)),
        map (fun c => one_hot_spec (label_of c)) (s_values target)).
Proof.
  intros Hf Ht Hr Hc Hb. unfold prepare_for_quantum.
  rewrite Hf, Ht. cbn [rbind].
  rewrite fit_transform_nonempty; [|
    intros E; apply Hr; apply length_zero_iff_nil;
    rewrite <- (drop_column_length _ _ _ Hf), E; reflexivity | exact Hc].
  cbn [rbind].
  replace (List.length target) with (List.length (s_values target))
    by (unfold s_values; apply length_map).
  pose proof (one_hot_loop_binary (s_values target) [] Hb) as Hloop.
  cbn [List.length app] in Hloop. rewrite Hloop. reflexivity.
Qed.

(** The scaled entries of a column whose least and greatest finite
    entries coincide are zero. *)
Lemma constant_column_entry (M : ndarray) (n i j : nat) (r : list cell)
  (c : cell) (x m : R) :
  (j < n)%nat ->
  nanmin (column M j) = Num m -> nanmax (column M j) = Num m ->
  nth_error M i = Some r -> nth_error r j = Some c -> fval c = Some x ->
  exists xr,
    nth_error (transform (fit (Num 0) np_pi n M) M) i = Some xr
    /\ nth_error xr j = Some (Num 0).
Proof.
  intros Hj Hmn Hmx Hr Hc Hx.
  destruct (transform_entry (Num 0) np_pi n M i j r c Hj Hr Hc) as (xr & H1 & H2).
  exists xr. split; [exact H1|]. rewrite H2. f_equal.
  assert (Hin : In x (valid (column M j))).
  { apply valid_In with c; [|exact Hx].
    apply nth_error_In with i. now apply nth_error_column with r. }
  destruct (nanmin_spec _ _ Hmn) as [_ Hlo].
  destruct (nanmax_spec _ _ Hmx) as [_ Hhi].
  specialize (Hlo x Hin). specialize (Hhi x Hin).
  rewrite (transform_constant _ m m c x Hmn Hmx); [|pose proof eps_pos; lra | exact Hx].
  f_equal. replace x with m by lra. ring.
Qed.


(** A column of the scaled matrix, when every row reaches the column. *)
Lemma column_transform (lo hi : cell) (n : nat) (M : ndarray) (j : nat) :
  (j < n)%nat ->
  (forall r, In r M -> (j < List.length r)%nat) ->
  column (transform (fit lo hi n M) M) j
  = map (fun c => transform_cell c (fit_column lo hi (column M j))) (column M j).
Proof.
  intros Hj Hlen. unfold column at 1 3. unfold transform at 1.
  rewrite !map_map. apply map_ext_in. intros r Hr.
  apply nth_error_nth. rewrite nth_error_map.
  rewrite (nth_error_combine _ _ _ (nth j r NaN) _
             (nth_error_nth' r NaN (Hlen r Hr)) (nth_error_fit lo hi n M j Hj)).
  reflexivity.
Qed.


(** ** C3: rescaling to [0, pi] *)


Lemma enc_run :
  prepare_for_quantum enc_df
  = Ok (transform (fit (Num 0) np_pi 4 (map snd (rows enc_feats)))
                  (map snd (rows enc_feats)),
        [[Num 1; Num 0]; [Num 1; Num 0]; [Num 0; Num 1]; [Num 1; Num 0]]).
Proof.
  rewrite (prepare_for_quantum_succeeds enc_df enc_feats enc_target);
    try reflexivity; try discriminate.
  unfold enc_target, is_binary. repeat constructor; tauto.
Qed.

Lemma enc_pressure_min :
  nanmin (column (map snd (rows enc_feats)) 2) = Num 91000.
Proof.
  unfold nanmin. cbn [enc_feats rows map snd column nth valid fval fold_left].
  f_equal. unfold Rmin. repeat (destruct (Rle_dec _ _); try lra).
Qed.

Lemma enc_pressure_max :
  nanmax (column (map snd (rows enc_feats)) 2) = Num 91000.
Proof.
  unfold nanmax. cbn [enc_feats rows map snd column nth valid fval fold_left].
  f_equal. unfold Rmax. repeat (destruct (Rle_dec _ _); try lra).
Qed.

Lemma enc_pressure_scaled :
  column (transform (fit (Num 0) np_pi 4 (map snd (rows enc_feats)))
                    (map snd (rows enc_feats))) 2
  = [Num 0; Num 0; Num 0; Num 0].
Proof.
  rewrite column_transform; [|lia|].
  - assert (Hr : 91000 - 91000 < 10 * eps) by (pose proof eps_pos; lra).
    change (column (map snd (rows enc_feats)) 2)
      with [Num 91000; Num 91000; Num 91000; Num 91000] at 2.
    cbn [map].
    rewrite (transform_constant _ 91000 91000 (Num 91000) 91000
               enc_pressure_min enc_pressure_max Hr eq_refl).
    repeat (apply f_equal2; [apply f_equal; ring |]). reflexivity.
  - intros r Hr. cbn in Hr.
    destruct Hr as [<-|[<-|[<-|[<-|[]]]]]; cbn; lia.
Qed.



(** ** C4: one-hot labels *)

(** C4 (amended).  On a frame with at least one row, at least one
    feature column and a target column of integers 0 and 1, the encoder
    succeeds and its second array has one row per row of the frame;
    row [i] has two entries of sum 1, it is [1, 0] when label [i] is 0
    and [0, 1] when label [i] is 1. *)
Theorem C4_one_hot_labels (df feats : DataFrame) (target : Series) :
  drop_column df "target" = Ok feats ->
  getitem df "target" = Ok target ->
  rows df <> [] -> columns feats <> [] ->
  Forall is_binary (s_values target) ->
  exists X y,
    prepare_for_quantum df = Ok (X, y)
    /\ List.length y = List.length (rows df)
    /\ forall (i : nat) (c : cell),
         nth_error (s_values target) i = Some c ->
         exists a b : R,
           nth_error y i = Some [Num a; Num b]
           /\ a + b = 1
           /\ (c = Int 0 -> a = 1 /\ b = 0)
           /\ (c = Int 1 -> a = 0 /\ b = 1).
Proof.
  intros Hf Ht Hr Hc Hb.
  eexists. eexists.
  split; [now apply (prepare_for_quantum_succeeds df feats target)|].
  split.
  - rewrite length_map. unfold s_values. rewrite length_map.
    now apply getitem_length with "target".
  - intros i c Hi.
    destruct (one_hot_spec_row (label_of c)) as (a & b & Hrow & Hsum & H0 & H1).
    exists a, b. split; [|split; [exact Hsum|split]].
    + rewrite nth_error_map, Hi. cbn [option_map]. now rewrite Hrow.
    + intros ->. now apply H0.
    + intros ->. now apply H1.
Qed.

Lemma C4_one_hot_labels_witness :
  exists X y,
    prepare_for_quantum enc_df = Ok (X, y)
    /\ List.length y = 4%nat
    /\ exists a b : R, nth_error y 2 = Some [Num a; Num b] /\ a = 0 /\ b = 1.
Proof.
  destruct (C4_one_hot_labels enc_df enc_feats enc_target)
    as (X & y & Hrun & Hlen & Hrows); try reflexivity; try discriminate.
  - unfold enc_target, is_binary. repeat constructor; tauto.
  - exists X, y. split; [exact Hrun|]. split; [exact Hlen|].
    destruct (Hrows 2%nat (Int 1) eq_refl) as (a & b & Hy & _ & _ & H1).
    exists a, b. split; [exact Hy | now apply H1].
Defined.

(** C4, as stated, fails on a dataset without rows: the feature
    builder returns it when the two files share no timestamp, and the
    encoder then raises [ValueError] in the scaler, before the label
    array is built; the script saves nothing. *)
Lemma C4_empty_dataset_counterexample :
  build_dataset c4_uber c4_sst
  = Ok (mkDF ["sst"; "relative_humidity"; "sp"; "ssrd"; "target"] [])
  /\ prepare_for_quantum
       (mkDF ["sst"; "relative_humidity"; "sp"; "ssrd"; "target"] [])
     = Raise ValueError
  /\ main c4_fs []
     = ([EvExists ERA5_FILE; EvExists SST_FILE; EvOpen ERA5_FILE; EvOpen SST_FILE],
        Raise ValueError).
Proof.
  repeat split; reflexivity.
Qed.

(** ** C8: a column without variance *)

(** C8 (amended).  On a frame on which the encoder has rows, feature
    columns and a binary target, a feature column whose least and
    greatest finite entries are equal raises no error: the encoder
    succeeds and every finite entry of that column is mapped to 0. *)
Theorem C8_constant_column_scaled_to_zero
  (df feats : DataFrame) (target : Series) (j : nat) (m : R) :
  drop_column df "target" = Ok feats ->
  getitem df "target" = Ok target ->
  rows df <> [] -> columns feats <> [] ->
  Forall is_binary (s_values target) ->
  (j < List.length (columns feats))%nat ->
  nanmin (column (map snd (rows feats)) j) = Num m ->
  nanmax (column (map snd (rows feats)) j) = Num m ->
  exists X y,
    prepare_for_quantum df = Ok (X, y)
    /\ forall (i : nat) (r : Time * list cell) (c : cell) (x : R),
         nth_error (rows feats) i = Some r ->
         nth_error (snd r) j = Some c -> fval c = Some x ->
         exists xr, nth_error X i = Some xr /\ nth_error xr j = Some (Num 0).
Proof.
  intros Hf Ht Hr Hc Hb Hj Hmn Hmx.
  eexists. eexists.
  split; [now apply (prepare_for_quantum_succeeds df feats target)|].
  intros i r c x Hi Hcj Hx.
  apply (constant_column_entry _ _ i j (snd r) c x m); try assumption.
  now apply nth_error_rows_snd.
Qed.

(** C8, as stated, fails: the pressure column of [enc_df] has equal
    minimum and maximum, and the encoder returns its two arrays, the
    pressure column scaled to zeros. *)
Lemma C8_constant_column_counterexample :
  nanmin (column (map snd (rows enc_feats)) 2)
  = nanmax (column (map snd (rows enc_feats)) 2)
  /\ drop_column enc_df "target" = Ok enc_feats
  /\ exists X y,
       prepare_for_quantum enc_df = Ok (X, y)
       /\ column X 2 = [Num 0; Num 0; Num 0; Num 0].
Proof.
  split; [now rewrite enc_pressure_min, enc_pressure_max|].
  split; [reflexivity|].
  eexists. eexists. split; [apply enc_run | apply enc_pressure_scaled].
Qed.

Lemma C8_constant_column_scaled_to_zero_witness :
  exists X y,
    prepare_for_quantum enc_df = Ok (X, y)
    /\ exists xr, nth_error X 0 = Some xr /\ nth_error xr 2 = Some (Num 0).
Proof.
  destruct (C8_constant_column_scaled_to_zero enc_df enc_feats enc_target 2 91000)
    as (X & y & Hrun & Hzero); try reflexivity; try discriminate.
  - unfold enc_target, is_binary. repeat constructor; tauto.
  - cbn. lia.
  - apply enc_pressure_min.
  - apply enc_pressure_max.
  - exists X, y. split; [exact Hrun|].
    apply (Hzero 0%nat (1%Z, [Num 299; Num 2; Num 91000; Num 800])
             (Num 91000) 91000); reflexivity.
Defined.

(** * Further properties *)

(** ** The range of the humidity *)






(** ** Entries of rows under assignment and join *)

Lemma col_pos_lt (c : string) (cols : list string) (i : nat) :
  col_pos c cols = Some i -> (i < List.length cols)%nat.
Proof.
  revert i. induction cols as [|c' cs IH]; cbn; intros i H; [discriminate|].
  destruct (String.eqb c c').
  - injection H as <-. lia.
  - destruct (col_pos c cs) as [k|]; [|discriminate].
    injection H as <-. specialize (IH k eq_refl). lia.
Qed.

Lemma col_pos_In (c : string) (cols : list string) :
  In c cols -> exists i, col_pos c cols = Some i.
Proof.
  intros H. destruct (col_pos c cols) as [i|] eqn:E; [eauto|].
  exfalso. revert E. induction cols as [|c' cs IH]; cbn; [destruct H|].
  destruct (String.eqb c c') eqn:Ec; [discriminate|].
  destruct H as [->|H]; [rewrite String.eqb_refl in Ec; discriminate|].
  destruct (col_pos c cs); [discriminate | intros _; now apply IH].
Qed.

Lemma col_pos_app_l (c : string) (cols more : list string) (i : nat) :
  col_pos c cols = Some i -> col_pos c (cols ++ more) = Some i.
Proof.
  revert i. induction cols as [|c' cs IH]; cbn; intros i H; [discriminate|].
  destruct (String.eqb c c'); [exact H|].
  destruct (col_pos c cs) as [k|]; [|discriminate].
  now rewrite (IH k eq_refl).
Qed.

Lemma col_pos_app_r (c : string) (cols more : list string) :
  ~ In c cols -> col_pos c (cols ++ c :: more) = Some (List.length cols).
Proof.
  induction cols as [|c' cs IH]; cbn; intros Hn.
  - now rewrite String.eqb_refl.
  - destruct (String.eqb c c') eqn:E.
    + apply String.eqb_eq in E. subst. exfalso. apply Hn. now left.
    + rewrite IH; [reflexivity|]. intros H. apply Hn. now right.
Qed.

Lemma cell_at_app (c : string) (cols more : list string) (r s : list cell) :
  In c cols -> List.length r = List.length cols ->
  cell_at c (cols ++ more) (r ++ s) = cell_at c cols r.
Proof.
  intros Hin Hlen. unfold cell_at.
  destruct (col_pos_In c cols Hin) as [i Hi].
  rewrite (col_pos_app_l _ _ more _ Hi), Hi.
  apply app_nth1. rewrite Hlen. now apply col_pos_lt with c.
Qed.

Lemma cell_at_appended (c : string) (cols more : list string)
  (r s : list cell) (v : cell) :
  ~ In c cols -> List.length r = List.length cols ->
  cell_at c (cols ++ c :: more) (r ++ v :: s) = v.
Proof.
  intros Hn Hlen. unfold cell_at. rewrite (col_pos_app_r _ _ more Hn).
  rewrite app_nth2 by lia. rewrite <- Hlen, Nat.sub_diag. reflexivity.
Qed.

Lemma nth_replace_nth_same (i : nat) (v : cell) (r : list cell) :
  (i < List.length r)%nat -> nth i (replace_nth i v r) NaN = v.
Proof.
  revert i. induction r as [|x r IH]; intros [|i] H; cbn in *; try lia.
  - reflexivity.
  - apply IH. lia.
Qed.

Lemma nth_replace_nth_other (i j : nat) (v : cell) (r : list cell) :
  i <> j -> nth j (replace_nth i v r) NaN = nth j r NaN.
Proof.
  revert i j. induction r as [|x r IH]; intros [|i] [|j] H; cbn; try reflexivity.
  - contradiction.
  - apply IH. lia.
Qed.

Lemma length_replace_nth {A : Type} (i : nat) (v : A) (r : list A) :
  List.length (replace_nth i v r) = List.length r.
Proof.
  revert i. induction r as [|x r IH]; intros [|i]; cbn; try reflexivity.
  now rewrite IH.
Qed.

Lemma col_pos_inj (c c' : string) (cols : list string) (i : nat) :
  col_pos c cols = Some i -> col_pos c' cols = Some i -> c = c'.
Proof.
  revert i. induction cols as [|x cs IH]; cbn; intros i H H'; [discriminate|].
  destruct (String.eqb c x) eqn:E, (String.eqb c' x) eqn:E'.
  - apply String.eqb_eq in E, E'. congruence.
  - destruct (col_pos c' cs); [|discriminate]. injection H as <-. discriminate.
  - destruct (col_pos c cs); [|discriminate]. injection H' as <-. discriminate.
  - destruct (col_pos c cs) as [k|]; [|discriminate].
    destruct (col_pos c' cs) as [k'|]; [|discriminate].
    injection H as <-. injection H' as E''. apply (IH k); congruence.
Qed.

Lemma length_put (cols : list string) (c : string) (v : cell) (r : list cell) :
  List.length r = List.length cols ->
  List.length (put cols c v r) = List.length (put_name cols c).
Proof.
  intros H. unfold put, put_name. destruct (col_pos c cols).
  - now rewrite length_replace_nth.
  - rewrite !length_app. cbn. lia.
Qed.

Lemma cell_at_put_same (cols : list string) (c : string) (v : cell)
  (r : list cell) :
  List.length r = List.length cols ->
  cell_at c (put_name cols c) (put cols c v r) = v.
Proof.
  intros Hlen. unfold cell_at, put, put_name.
  destruct (col_pos c cols) as [i|] eqn:E.
  - rewrite E. apply nth_replace_nth_same. rewrite Hlen. now apply col_pos_lt with c.
  - assert (Hn : ~ In c cols).
    { intros H. destruct (col_pos_In _ _ H) as [i Hi]. congruence. }
    rewrite (col_pos_app_r c cols [] Hn).
    rewrite app_nth2 by lia. rewrite Hlen, Nat.sub_diag. reflexivity.
Qed.

Lemma cell_at_put_other (cols : list string) (c c' : string) (v : cell)
  (r : list cell) :
  c' <> c -> In c' cols -> List.length r = List.length cols ->
  cell_at c' (put_name cols c) (put cols c v r) = cell_at c' cols r.
Proof.
  intros Hne Hin Hlen. unfold put, put_name.
  destruct (col_pos c cols) as [i|] eqn:E.
  - unfold cell_at. destruct (col_pos_In _ _ Hin) as [j Hj]. rewrite Hj.
    apply nth_replace_nth_other. intros ->. apply Hne.
    now apply (col_pos_inj c' c cols j).
  - now apply cell_at_app.
Qed.

Lemma spatial_mean_frame_well_formed (ds : Dataset) :
  well_formed_dataset ds -> well_formed (spatial_mean_frame ds).
Proof.
  unfold well_formed_dataset, well_formed, spatial_mean_frame. cbn [rows columns].
  intros H. apply Forall_map. eapply Forall_impl; [|exact H].
  intros st Hst. cbn. now rewrite length_map.
Qed.

(** ** The humidity column *)

Lemma add_relative_humidity_cases (df df' : DataFrame) :
  add_relative_humidity df = Ok df' ->
  (~ (In "t2m" (columns df) /\ In "d2m" (columns df)) /\ df' = df)
  \/ (In "t2m" (columns df) /\ In "d2m" (columns df)
      /\ df' = mkDF (put_name (columns df) "relative_humidity")
                 (map (fun r =>
                         (fst r,
                          put (columns df) "relative_humidity"
                              (calculate_relative_humidity
                                 (cell_at "t2m" (columns df) (snd r))
                                 (cell_at "d2m" (columns df) (snd r)))
                              (snd r)))
                      (rows df))).
Proof.
  intros H.
  destruct (in_dec string_dec "t2m" (columns df)) as [Ht|Ht];
    destruct (in_dec string_dec "d2m" (columns df)) as [Hd|Hd].
  - right. rewrite (add_relative_humidity_present df Ht Hd) in H.
    injection H as <-. repeat split; assumption.
  - left. rewrite add_relative_humidity_absent in H by tauto.
    injection H as <-. split; [tauto | reflexivity].
  - left. rewrite add_relative_humidity_absent in H by tauto.
    injection H as <-. split; [tauto | reflexivity].
  - left. rewrite add_relative_humidity_absent in H by tauto.
    injection H as <-. split; [tauto | reflexivity].
Qed.

(** X2.  Lines 41-42 on a well-formed frame: the index is kept, the frame
    stays well formed, every other column keeps its values, and when
    both temperatures are columns the humidity column holds, for every
    row, the humidity of that row's two temperatures. *)
Theorem add_relative_humidity_column (df df' : DataFrame) :
  well_formed df ->
  add_relative_humidity df = Ok df' ->
  index df' = index df
  /\ well_formed df'
  /\ (forall c, c <> "relative_humidity" -> In c (columns df) ->
                getitem df' c = getitem df c)
  /\ (In "t2m" (columns df) -> In "d2m" (columns df) ->
      getitem df' "relative_humidity"
      = Ok (map (fun r =>
                   (fst r,
                    calculate_relative_humidity
                      (cell_at "t2m" (columns df) (snd r))
                      (cell_at "d2m" (columns df) (snd r))))
                (rows df))).
Proof.
  intros Hwf H.
  destruct (add_relative_humidity_cases df df' H) as [[Hn ->] | (Ht & Hd & ->)].
  - repeat split; try assumption; try reflexivity. intros Ht Hd. tauto.
  - unfold well_formed in Hwf. rewrite Forall_forall in Hwf.
    match goal with |- context [index ?d] => set (df2 := d) in * end.
    split; [unfold index; cbn [rows df2]; now rewrite map_map|]. split; [|split].
    + unfold well_formed. cbn [rows columns df2]. apply Forall_map, Forall_forall.
      intros r Hr. cbn [snd]. apply length_put. now apply Hwf.
    + intros c Hne Hin.
      assert (Hin' : In c (put_name (columns df) "relative_humidity")).
      { unfold put_name. destruct (col_pos _ _); [exact Hin|].
        apply in_or_app. now left. }
      rewrite (getitem_In _ _ Hin), (getitem_In df2 _ Hin'). cbn [rows columns df2].
      f_equal. rewrite map_map. apply map_ext_in. intros r Hr. cbn [fst snd].
      f_equal. apply cell_at_put_other; [exact Hne | exact Hin | now apply Hwf].
    + intros _ _.
      assert (Hin' : In "relative_humidity"
                        (put_name (columns df) "relative_humidity")).
      { unfold put_name.
        destruct (col_pos "relative_humidity" (columns df)) as [i|] eqn:E.
        - destruct (in_dec string_dec "relative_humidity" (columns df)) as [Hi|Hi];
            [exact Hi|]. rewrite (col_pos_None _ _ Hi) in E. discriminate.
        - apply in_or_app. right. now left. }
      rewrite (getitem_In df2 _ Hin'). cbn [rows columns df2].
      f_equal. rewrite map_map. apply map_ext_in. intros r Hr. cbn [fst snd].
      f_equal. apply cell_at_put_same. now apply Hwf.
Qed.

Lemma add_relative_humidity_column_witness :
  exists df',
    add_relative_humidity c7_local = Ok df'
    /\ index df' = [1%Z; 2%Z; 3%Z]
    /\ getitem df' "sp" = getitem c7_local "sp".
Proof.
  assert (Hwf : well_formed c7_local)
    by (unfold well_formed, c7_local; cbn; repeat constructor).
  destruct (add_relative_humidity c7_local) as [df'|e] eqn:E;
    [|unfold add_relative_humidity in E; cbn in E; discriminate].
  destruct (add_relative_humidity_column c7_local df' Hwf E) as (Hi & _ & Hc & _).
  exists df'. split; [reflexivity|]. split; [exact Hi|].
  apply Hc; [discriminate | cbn; tauto].
Defined.

(** ** The rows of the join *)

Lemma join_step_Ok (df_uber df_sst df_final : DataFrame) :
  join_step df_uber df_sst = Ok df_final ->
  In "sst" (columns df_sst)
  /\ df_final
     = join_inner df_uber
         (mkDF ["sst"]
            (map (fun r => (fst r, [cell_at "sst" (columns df_sst) (snd r)]))
                 (rows df_sst)))
         "_ocean".
Proof.
  unfold join_step. intros H.
  apply rbind_Ok in H as (sst & Hsst & H). injection H as <-.
  apply getitem_list_Ok in Hsst as [-> Hall].
  split; [now inversion Hall | reflexivity].
Qed.

(** X3.  Line 50 on a well-formed local frame: every joined row pairs a
    local row and a teleconnection row of the same timestamp; the local
    columns keep the local values; the sea surface temperature of the
    teleconnection file is read under the name [sst] when the local
    frame has no such column, and under [sst_ocean] when it has one
    (and no [sst_ocean] of its own), in which case [sst] still reads
    the local value. *)
Theorem join_step_rows (df_uber df_sst df_final : DataFrame)
  (row : Time * list cell) :
  well_formed df_uber ->
  join_step df_uber df_sst = Ok df_final ->
  In row (rows df_final) ->
  exists (l s : Time * list cell),
    In l (rows df_uber) /\ In s (rows df_sst)
    /\ fst l = fst row /\ fst s = fst row
    /\ (forall c, In c (columns df_uber) ->
                  cell_at c (columns df_final) (snd row)
                  = cell_at c (columns df_uber) (snd l))
    /\ (~ In "sst" (columns df_uber) ->
        cell_at "sst" (columns df_final) (snd row)
        = cell_at "sst" (columns df_sst) (snd s))
    /\ (In "sst" (columns df_uber) -> ~ In "sst_ocean" (columns df_uber) ->
        cell_at "sst_ocean" (columns df_final) (snd row)
        = cell_at "sst" (columns df_sst) (snd s)).
Proof.
  intros Hwf H Hin.
  apply join_step_Ok in H as [_ ->].
  unfold join_inner in Hin. cbn [rows] in Hin.
  apply in_flat_map in Hin as (l & Hl & Hin).
  apply in_map_iff in Hin as (r & <- & Hr).
  apply filter_In in Hr as [Hr Heq]. apply Z.eqb_eq in Heq.
  apply in_map_iff in Hr as (s & <- & Hs). cbn [fst snd] in *.
  unfold well_formed in Hwf. rewrite Forall_forall in Hwf.
  pose proof (Hwf l Hl) as Hlen.
  exists l, s. split; [exact Hl|]. split; [exact Hs|].
  split; [reflexivity|]. split; [exact Heq|].
  unfold join_inner, joined_columns. cbn [columns map].
  split; [|split].
  - intros c Hc. now apply cell_at_app.
  - intros Hn.
    assert (E : existsb (String.eqb "sst") (columns df_uber) = false).
    { destruct (existsb (String.eqb "sst") (columns df_uber)) eqn:E; [|reflexivity].
      exfalso. apply Hn. apply existsb_exists in E as (x & Hx & Ex).
      apply String.eqb_eq in Ex. now subst. }
    rewrite E. now apply cell_at_appended.
  - intros Hy Ho.
    assert (E : existsb (String.eqb "sst") (columns df_uber) = true).
    { apply existsb_exists. exists "sst". split; [exact Hy | reflexivity]. }
    rewrite E. cbn [append]. now apply cell_at_appended.
Qed.

Lemma join_step_rows_witness :
  exists (l s : Time * list cell),
    In l (rows c7_local) /\ In s (rows c7_sst)
    /\ fst l = 2%Z /\ fst s = 2%Z
    /\ cell_at "sst" (joined_columns (columns c7_local) ["sst"] "_ocean")
                     [Num 291; Num 286; Num 91100; Num 810; Num 299]
       = cell_at "sst" (columns c7_sst) (snd s).
Proof.
  assert (Hwf : well_formed c7_local)
    by (unfold well_formed, c7_local; cbn; repeat constructor).
  assert (Hj : join_step c7_local c7_sst = Ok (join_inner c7_local c7_sst "_ocean"))
    by reflexivity.
  destruct (join_step_rows c7_local c7_sst _
              (2%Z, [Num 291; Num 286; Num 91100; Num 810; Num 299]) Hwf Hj)
    as (l & s & Hl & Hs & Hfl & Hfs & _ & Hsst & _).
  - cbn. tauto.
  - exists l, s. repeat split; try assumption.
    apply Hsst. cbn. intros [E|[E|[E|[E|[]]]]]; discriminate.
Defined.

(** ** A run on complete files *)

Lemma in_put_name (cols : list string) (c c' : string) :
  In c cols -> In c (put_name cols c').
Proof.
  intros H. unfold put_name. destruct (col_pos c' cols); [exact H|].
  apply in_or_app. now left.
Qed.

Lemma in_put_name_same (cols : list string) (c : string) :
  In c (put_name cols c).
Proof.
  unfold put_name. destruct (col_pos c cols) as [i|] eqn:E.
  - destruct (in_dec string_dec c cols) as [Hi|Hi]; [exact Hi|].
    rewrite (col_pos_None _ _ Hi) in E. discriminate.
  - apply in_or_app. right. now left.
Qed.

Lemma join_step_In (df_uber df_sst : DataFrame) :
  In "sst" (columns df_sst) ->
  join_step df_uber df_sst
  = Ok (join_inner df_uber
          (mkDF ["sst"]
             (map (fun r => (fst r, [cell_at "sst" (columns df_sst) (snd r)]))
                  (rows df_sst)))
          "_ocean").
Proof.
  intros H. unfold join_step. rewrite getitem_list_In; [reflexivity|].
  repeat constructor. exact H.
Qed.

Lemma join_step_index (df_uber df_sst df_final : DataFrame) :
  NoDup (index df_sst) ->
  join_step df_uber df_sst = Ok df_final ->
  index df_final = filter (fun t => existsb (Z.eqb t) (index df_sst)) (index df_uber).
Proof.
  intros Hnd H. apply join_step_Ok in H as [_ ->].
  rewrite join_inner_index_NoDup; unfold index; cbn [rows]; rewrite map_map;
    [reflexivity | exact Hnd].
Qed.

Lemma join_step_columns_In (df_uber df_sst df_final : DataFrame) (c : string) :
  join_step df_uber df_sst = Ok df_final ->
  In c (columns df_uber) \/ c = "sst" -> In c (columns df_final).
Proof.
  intros H Hc. apply join_step_Ok in H as [_ ->].
  unfold join_inner, joined_columns. cbn [columns map].
  apply in_or_app. destruct Hc as [Hc | ->]; [now left|].
  destruct (existsb (String.eqb "sst") (columns df_uber)) eqn:E.
  - left. apply existsb_exists in E as (x & Hx & Ex).
    apply String.eqb_eq in Ex. now subst.
  - right. now left.
Qed.

Lemma add_relative_humidity_index (df df' : DataFrame) :
  add_relative_humidity df = Ok df' -> index df' = index df.
Proof.
  intros H.
  destruct (add_relative_humidity_cases df df' H) as [[_ ->] | (_ & _ & ->)];
    [reflexivity|].
  unfold index. cbn [rows]. now rewrite map_map.
Qed.

Lemma spatial_mean_frame_index (ds : Dataset) :
  index (spatial_mean_frame ds) = map fst (steps ds).
Proof.
  unfold index, spatial_mean_frame. cbn [rows]. now rewrite map_map.
Qed.

Lemma label_step_t2m (df_final df_model : DataFrame) :
  label_step df_final = Ok df_model ->
  exists t2m, getitem df_final "t2m" = Ok t2m.
Proof.
  unfold label_step. intros H.
  apply rbind_Ok in H as (d1 & _ & H).
  apply rbind_Ok in H as (tg & Htg & _).
  unfold target_step in Htg. apply rbind_Ok in Htg as (t2m & Ht2m & _).
  eauto.
Qed.

Lemma preprocess_data_run
  (fs : FS) (era5_file sst_file : string) (ds_uber ds_sst : Dataset)
  (tr0 : list event) :
  fs era5_file = Some ds_uber ->
  fs sst_file = Some ds_sst ->
  In "t2m" (data_vars ds_uber) -> In "d2m" (data_vars ds_uber) ->
  In "sp" (data_vars ds_uber) -> In "ssrd" (data_vars ds_uber) ->
  In "sst" (data_vars ds_sst) ->
  NoDup (map fst (steps ds_uber)) -> NoDup (map fst (steps ds_sst)) ->
  exists df_model,
    preprocess_data era5_file sst_file fs tr0
    = (tr0 ++ [EvExists era5_file; EvExists sst_file;
               EvOpen era5_file; EvOpen sst_file],
       Ok (Some df_model))
    /\ build_dataset ds_uber ds_sst = Ok df_model
    /\ columns df_model = ["sst"; "relative_humidity"; "sp"; "ssrd"; "target"].
Proof.
  intros Hu Hs Ht Hd Hsp Hss Hsst Hndu Hnds.
  set (df_uber := spatial_mean_frame ds_uber).
  set (df_sst := spatial_mean_frame ds_sst).
  destruct (add_relative_humidity df_uber) as [df1|e] eqn:Hadd;
    [|unfold df_uber in Hadd; rewrite add_relative_humidity_present in Hadd
        by assumption; discriminate].
  pose proof (add_relative_humidity_index _ _ Hadd) as Hidx1.
  assert (Hcols1 : forall c, In c (columns df_uber) -> In c (columns df1)).
  { intros c Hc.
    destruct (add_relative_humidity_cases _ _ Hadd) as [[_ ->] | (_ & _ & ->)];
      [exact Hc | now apply in_put_name]. }
  assert (Hrh : In "relative_humidity" (columns df1)).
  { destruct (add_relative_humidity_cases _ _ Hadd) as [[Hn _] | (_ & _ & ->)];
      [exfalso; apply Hn; split; assumption | apply in_put_name_same]. }
  pose proof (join_step_In df1 df_sst Hsst) as Hj.
  set (df_final := join_inner _ _ _) in Hj.
  assert (Hnd : NoDup (index df_final)).
  { rewrite (join_step_index df1 df_sst df_final); [|
      unfold df_sst; rewrite spatial_mean_frame_index; exact Hnds | exact Hj].
    apply NoDup_filter. rewrite Hidx1. unfold df_uber.
    rewrite spatial_mean_frame_index. exact Hndu. }
  destruct (label_step_succeeds df_final Hnd) as [df_model Hl].
  - unfold features. repeat constructor;
      apply (join_step_columns_In df1 df_sst df_final _ Hj); auto.
  - apply (join_step_columns_In df1 df_sst df_final _ Hj). left. now apply Hcols1.
  - exists df_model.
    assert (Hb : build_dataset ds_uber ds_sst = Ok df_model).
    { unfold build_dataset. fold df_uber df_sst. rewrite Hadd. cbn [rbind].
      rewrite Hj. cbn [rbind]. exact Hl. }
    split; [|split; [exact Hb|]].
    + unfold preprocess_data, bind, path_exists, open_dataset, lift, ret.
      rewrite Hu. cbn iota beta. rewrite Hs. cbn [negb orb]. cbn iota beta.
      rewrite Hu. fold df_uber. rewrite Hadd, Hs. fold df_sst. rewrite Hj, Hl.
      rewrite <- !app_assoc. reflexivity.
    + destruct (label_step_t2m _ _ Hl) as [t2m Ht2m].
      exact (proj1 (label_step_rows _ _ _ Ht2m Hl)).
Qed.



(** ** The order of the dataset *)

Lemma increasing_map_filter {A : Type} (f : A -> Time) (p : A -> bool)
  (l : list A) :
  increasing (map f l) -> increasing (map f (filter p l)).
Proof.
  unfold increasing. induction l as [|a l IH]; cbn; intros H; [constructor|].
  apply StronglySorted_inv in H as [Hs Hall].
  destruct (p a); [|now apply IH]. cbn. constructor; [now apply IH|].
  rewrite Forall_forall in *. intros t Ht.
  apply in_map_iff in Ht as (x & <- & Hx). apply filter_In in Hx as [Hx _].
  apply Hall. now apply in_map.
Qed.

Lemma increasing_filter (p : Time -> bool) (l : list Time) :
  increasing l -> increasing (filter p l).
Proof.
  intros H. rewrite <- (map_id l) in H.
  apply (increasing_map_filter (fun t => t) p) in H. now rewrite map_id in H.
Qed.

Lemma label_step_index (df_final df_model : DataFrame) :
  label_step df_final = Ok df_model ->
  index df_model = map fst (kept_rows df_final)
  \/ index df_model = index df_final.
Proof.
  intros H. destruct (label_step_t2m _ _ H) as [t2m Ht2m].
  destruct (label_step_rows _ _ _ Ht2m H) as (_ & Hsome & Hnone).
  destruct (kept_rows df_final) as [|k ks] eqn:Hk.
  - right. unfold index. rewrite (Hnone eq_refl), map_map. reflexivity.
  - left. unfold index. rewrite Hsome by discriminate. rewrite map_map.
    reflexivity.
Qed.

(** X5.  When the timestamps of the local file increase strictly and those
    of the teleconnection file are distinct, the timestamps of the
    dataset increase strictly, and each of them is a timestamp of both
    files. *)
Theorem dataset_timestamps_increasing
  (ds_uber ds_sst : Dataset) (df_model : DataFrame) :
  build_dataset ds_uber ds_sst = Ok df_model ->
  increasing (map fst (steps ds_uber)) ->
  NoDup (map fst (steps ds_sst)) ->
  increasing (index df_model)
  /\ forall t, In t (index df_model) ->
               In t (map fst (steps ds_uber)) /\ In t (map fst (steps ds_sst)).
Proof.
  unfold build_dataset. intros H Hinc Hnd.
  apply rbind_Ok in H as (df1 & Hadd & H).
  apply rbind_Ok in H as (df_final & Hj & Hl).
  pose proof (add_relative_humidity_index _ _ Hadd) as Hidx1.
  rewrite spatial_mean_frame_index in Hidx1.
  assert (Hidx : index df_final
                 = filter (fun t => existsb (Z.eqb t) (map fst (steps ds_sst)))
                          (map fst (steps ds_uber))).
  { rewrite (join_step_index df1 (spatial_mean_frame ds_sst) df_final);
      [| rewrite spatial_mean_frame_index; exact Hnd | exact Hj].
    now rewrite spatial_mean_frame_index, Hidx1. }
  assert (Hfin : increasing (index df_final))
    by (rewrite Hidx; now apply increasing_filter).
  assert (Hmem : forall t, In t (index df_final) ->
                 In t (map fst (steps ds_uber)) /\ In t (map fst (steps ds_sst))).
  { intros t Ht. rewrite Hidx in Ht. apply filter_In in Ht as [Ht He].
    split; [exact Ht | now apply existsb_eqb_In]. }
  destruct (label_step_index _ _ Hl) as [E|E]; rewrite E.
  - split; [now apply increasing_map_filter|].
    intros t Ht. apply Hmem. unfold index.
    apply in_map_iff in Ht as (x & <- & Hx). apply filter_In in Hx as [Hx _].
    now apply in_map.
  - split; assumption.
Qed.

Lemma dataset_timestamps_increasing_witness :
  exists df_model,
    build_dataset x_uber x_sst = Ok df_model
    /\ increasing (index df_model).
Proof.
  destruct (build_dataset x_uber x_sst) as [dm|e] eqn:E.
  - exists dm. split; [reflexivity|].
    apply (dataset_timestamps_increasing x_uber x_sst dm E).
    + unfold increasing. cbn. repeat constructor.
    + apply is_unique_NoDup. reflexivity.
  - exfalso.
    destruct (preprocess_data_run x_fs ERA5_FILE SST_FILE x_uber x_sst [])
      as (dm & _ & Hb & _);
      try reflexivity; try (cbn; tauto);
      try (apply is_unique_NoDup; reflexivity).
    congruence.
Defined.

(** ** Duplicated timestamps *)

Lemma filter_all_none {A : Type} (p : A -> bool) (l : list A) :
  filter p l = l -> filter (fun x => negb (p x)) l = [].
Proof.
  intros H. pose proof (filter_length p l) as Hl. rewrite H in Hl.
  apply length_zero_iff_nil. lia.
Qed.

(** X6.  On a joined frame that has the four feature columns and the
    temperature column, a duplicated timestamp makes line 59 raise
    [ValueError] as soon as [dropna] has dropped some rows and kept
    others: the target can then no longer be aligned by label. *)
Theorem label_step_duplicated_timestamps (df_final : DataFrame) :
  Forall (fun c => In c (columns df_final)) features ->
  In "t2m" (columns df_final) ->
  ~ NoDup (index df_final) ->
  kept_rows df_final <> [] ->
  dropped_rows df_final <> [] ->
  label_step df_final = Raise ValueError.
Proof.
  intros Hall Ht Hdup Hk Hd. unfold label_step, select_step, target_step.
  rewrite (getitem_list_In _ _ Hall), (getitem_In _ _ Ht). cbn [rbind].
  unfold dropna. cbn [columns rows].
  rewrite (filter_map_swap complete (feature_row df_final)).
  fold (kept_rows df_final).
  unfold setitem.
  set (target := astype_int _).
  assert (Hti : s_index target = index df_final).
  { unfold target, s_index, astype_int, gt_scalar, index. now rewrite !map_map. }
  assert (Hens : ensure_valid_index
                   (mkDF features (map (feature_row df_final) (kept_rows df_final)))
                   target
                 = mkDF features (map (feature_row df_final) (kept_rows df_final))).
  { unfold ensure_valid_index. cbn [rows].
    destruct (kept_rows df_final); [contradiction | reflexivity]. }
  rewrite Hens.
  destruct (list_eq_dec Z.eq_dec (s_index target) _) as [Heq|_].
  - exfalso. apply Hd. unfold dropped_rows. apply filter_all_none.
    apply filter_same_fst. unfold index in Heq, Hti. cbn [rows] in Heq.
    rewrite Hti, map_map in Heq. exact Heq.
  - destruct (is_unique (s_index target)) eqn:Hu; [|reflexivity].
    exfalso. apply Hdup. rewrite <- Hti. now apply is_unique_NoDup.
Qed.

Lemma label_step_duplicated_timestamps_witness :
  label_step x_duplicated = Raise ValueError.
Proof.
  apply label_step_duplicated_timestamps.
  - unfold features, x_duplicated; cbn. repeat constructor; tauto.
  - cbn. tauto.
  - intros H. apply is_unique_NoDup in H. discriminate.
  - unfold kept_rows. cbn. discriminate.
  - unfold dropped_rows. cbn. discriminate.
Defined.

(** ** The outcomes of the encoder *)

Lemma assign_hot_ok (done rest : ndarray) (val : cell) :
  index_okb val = true ->
  assign_hot (done ++ [Num 0; Num 0] :: rest) (List.length done) val
  = Ok (done ++ hot_row val :: rest).
Proof.
  destruct val as [r|z|]; cbn [index_okb]; intros H; try discriminate.
  apply andb_true_iff in H as [H1 H2].
  apply Z.leb_le in H1. apply Z.ltb_lt in H2.
  assert (Hz : z = (-2)%Z \/ z = (-1)%Z \/ z = 0%Z \/ z = 1%Z) by lia.
  destruct Hz as [-> | [-> | [-> | ->]]]; unfold assign_hot, set2, hot_row;
    cbn [Z.leb Z.ltb Z.eqb Z.compare andb orb Z.add Z.to_nat Pos.to_nat
         Pos.iter_op Init.Nat.add Z.pos_sub Pos.compare Pos.compare_cont];
    rewrite nth_error_app_length, replace_nth_app_length; reflexivity.
Qed.

Lemma assign_hot_bad (y : ndarray) (i : nat) (val : cell) :
  index_okb val = false -> assign_hot y i val = Raise IndexError.
Proof.
  destruct val as [r|z|]; cbn [index_okb assign_hot]; intros H; try reflexivity.
  destruct ((0 <=? z) && (z <? 2))%Z eqn:E1.
  - apply andb_true_iff in E1 as [H1 H2].
    apply Z.leb_le in H1. apply Z.ltb_lt in H2.
    apply andb_false_iff in H as [H|H];
      [apply Z.leb_gt in H | apply Z.ltb_ge in H]; lia.
  - destruct ((-2 <=? z) && (z <? 0))%Z eqn:E2; [|reflexivity].
    apply andb_true_iff in E2 as [H1 H2].
    apply Z.leb_le in H1. apply Z.ltb_lt in H2.
    apply andb_false_iff in H as [H|H];
      [apply Z.leb_gt in H | apply Z.ltb_ge in H]; lia.
Qed.

(** The loop of lines 75-76: it ends with one row per label when every
    label is an integer of [-2, 2), and raises [IndexError] at the
    first label that is not. *)
Lemma one_hot_loop_outcome (target : list cell) (done : ndarray) :
  one_hot_loop target (List.length done) (done ++ np_zeros (List.length target) 2)
  = if forallb index_okb target
    then Ok (done ++ map hot_row target)
    else Raise IndexError.
Proof.
  revert done. induction target as [|val target IH]; intros done.
  - cbn. now rewrite !app_nil_r.
  - cbn [one_hot_loop List.length np_zeros repeat map forallb].
    fold (np_zeros (List.length target) 2).
    destruct (index_okb val) eqn:Hv.
    + rewrite (assign_hot_ok done _ val Hv). cbn [rbind andb].
      specialize (IH (done ++ [hot_row val])).
      rewrite length_app in IH. cbn [List.length] in IH.
      rewrite Nat.add_1_r in IH. rewrite <- !app_assoc in IH. cbn [app] in IH.
      exact IH.
    + rewrite (assign_hot_bad _ _ val Hv). reflexivity.
Qed.

(** X7.  Every outcome of [prepare_for_quantum].  Without a [target] column
    it raises [KeyError].  With one, it raises [ValueError] when the
    frame has no row or no other column; otherwise it raises
    [IndexError] when some label is not an integer of [-2, 2) and
    returns the scaled features and the one-hot rows when all are,
    the labels -2 and -1 counting from the end of the row. *)
Theorem prepare_for_quantum_outcome (df : DataFrame) :
  (~ In "target" (columns df) ->
   prepare_for_quantum df = Raise (KeyError ["target"]))
  /\ (In "target" (columns df) ->
      exists feats target,
        drop_column df "target" = Ok feats
        /\ getitem df "target" = Ok target
        /\ (rows df = [] \/ columns feats = [] ->
            prepare_for_quantum df = Raise ValueError)
        /\ (rows df <> [] -> columns feats <> [] ->
            prepare_for_quantum df
            = if forallb index_okb (s_values target)
              then Ok (transform
                         (fit (Num 0) np_pi (List.length (columns feats))
                              (map snd (rows feats)))
                         (map snd (rows feats)),
                       map hot_row (s_values target))
              else Raise IndexError)).
Proof.
  split.
  - intros Hn. unfold prepare_for_quantum, drop_column.
    now rewrite (col_pos_None _ _ Hn).
  - intros Hin. destruct (col_pos_In _ _ Hin) as [i Hi].
    assert (Hf : drop_column df "target"
                 = Ok (mkDF (remove_nth i (columns df))
                         (map (fun r => (fst r, remove_nth i (snd r))) (rows df))))
      by (unfold drop_column; now rewrite Hi).
    eexists. eexists. split; [exact Hf|]. split; [now apply getitem_In|].
    unfold prepare_for_quantum. rewrite Hf, (getitem_In _ _ Hin). cbn [rbind].
    split.
    + intros [Hr|Hc]; unfold fit_transform; cbn [rows columns].
      * rewrite Hr. reflexivity.
      * cbn [columns] in Hc. rewrite Hc.
        destruct (map _ (rows df)); reflexivity.
    + intros Hr Hc.
      rewrite fit_transform_nonempty; [| cbn [rows];
        intros E; apply Hr; now apply map_eq_nil in E | exact Hc].
      cbn [rbind].
      set (target := map _ (rows df)).
      replace (List.length target) with (List.length (s_values target))
        by (unfold s_values; apply length_map).
      pose proof (one_hot_loop_outcome (s_values target) []) as Hloop.
      cbn [List.length app] in Hloop. rewrite Hloop.
      destruct (forallb index_okb (s_values target)); reflexivity.
Qed.

Lemma prepare_for_quantum_outcome_witness :
  prepare_for_quantum (mkDF ["sst"; "sp"] [ (1%Z, [Num 299; Num 91000]) ])
  = Raise (KeyError ["target"])
  /\ prepare_for_quantum
       (mkDF ["sst"; "target"] [ (1%Z, [Num 299; Int 2]) ])
     = Raise IndexError
  /\ exists X,
       prepare_for_quantum
         (mkDF ["sst"; "target"] [ (1%Z, [Num 299; Int (-1)]) ])
       = Ok (X, [[Num 0; Num 1]]).
Proof.
  split; [|split].
  - apply (proj1 (prepare_for_quantum_outcome _)).
    cbn. intros [H|[H|[]]]; discriminate.
  - destruct (proj2 (prepare_for_quantum_outcome
                       (mkDF ["sst"; "target"] [ (1%Z, [Num 299; Int 2]) ])))
      as (feats & target & Hf & Ht & _ & Hrun); [cbn; tauto|].
    injection Hf as <-. injection Ht as <-.
    rewrite Hrun by discriminate. reflexivity.
  - destruct (proj2 (prepare_for_quantum_outcome
                       (mkDF ["sst"; "target"] [ (1%Z, [Num 299; Int (-1)]) ])))
      as (feats & target & Hf & Ht & _ & Hrun); [cbn; tauto|].
    injection Hf as <-. injection Ht as <-.
    rewrite Hrun by discriminate. eexists. reflexivity.
Defined.

(** ** The range and the order of the scaled features *)

Lemma valid_nonempty_min_max (col : list cell) (x : R) :
  In x (valid col) ->
  exists mn mx, nanmin col = Num mn /\ nanmax col = Num mx /\ mn <= x <= mx.
Proof.
  intros Hin. unfold nanmin, nanmax.
  destruct (valid col) as [|v vs] eqn:Hv; [destruct Hin|].
  eexists. eexists. split; [reflexivity|]. split; [reflexivity|].
  split.
  - now apply (proj2 (fold_Rmin_spec vs v)).
  - now apply (proj2 (fold_Rmax_spec vs v)).
Qed.

Lemma scaled_cell (col : list cell) (c : cell) (x : R) :
  In c col -> fval c = Some x ->
  exists mn mx,
    nanmin col = Num mn /\ nanmax col = Num mx /\ mn <= x <= mx
    /\ transform_cell c (fit_column (Num 0) np_pi col) = Num (scaled mn mx x).
Proof.
  intros Hin Hx.
  destruct (valid_nonempty_min_max col x (valid_In col c x Hin Hx))
    as (mn & mx & Hmn & Hmx & Hb).
  exists mn, mx. repeat split; try assumption; try lra.
  unfold scaled. destruct (Rlt_dec (mx - mn) (10 * eps)) as [Hlt|Hge].
  - now apply transform_constant with mx.
  - apply transform_regular; try assumption. lra.
Qed.


Lemma scaled_monotone (mn mx x1 x2 : R) :
  x1 <= x2 -> scaled mn mx x1 <= scaled mn mx x2.
Proof.
  intros Hle. pose proof PI_RGT_0 as Hpi.
  unfold scaled. destruct (Rlt_dec (mx - mn) (10 * eps)) as [Hlt|Hge].
  - apply Rmult_le_compat_r; lra.
  - assert (Hr : 0 < mx - mn) by (pose proof eps_pos; lra).
    unfold affine_spec. apply Rmult_le_compat_r; [lra|].
    apply Rmult_le_compat_r; [left; now apply Rinv_0_lt_compat | lra].
Qed.








(** X9.  Within a feature column the scaling keeps the order: of two finite
    entries of the column, the smaller one has the smaller image. *)
Theorem scaled_order_preserved
  (df feats : DataFrame) (X y : ndarray) (i1 i2 j : nat)
  (r1 r2 : Time * list cell) (c1 c2 : cell) (x1 x2 : R) :
  prepare_for_quantum df = Ok (X, y) ->
  drop_column df "target" = Ok feats ->
  (j < List.length (columns feats))%nat ->
  nth_error (rows feats) i1 = Some r1 -> nth_error (snd r1) j = Some c1 ->
  nth_error (rows feats) i2 = Some r2 -> nth_error (snd r2) j = Some c2 ->
  fval c1 = Some x1 -> fval c2 = Some x2 -> x1 <= x2 ->
  exists xr1 xr2 y1 y2,
    nth_error X i1 = Some xr1 /\ nth_error xr1 j = Some (Num y1)
    /\ nth_error X i2 = Some xr2 /\ nth_error xr2 j = Some (Num y2)
    /\ y1 <= y2.
Proof.
  intros H Hf Hj Hr1 Hc1 Hr2 Hc2 Hx1 Hx2 Hle.
  apply prepare_for_quantum_Ok in H as (feats' & target & Hf' & _ & HX & _).
  rewrite Hf in Hf'. injection Hf' as <-.
  apply fit_transform_Ok in HX as (_ & _ & ->).
  set (M := map snd (rows feats)).
  destruct (transform_entry (Num 0) np_pi _ M i1 j (snd r1) c1 Hj
              (nth_error_rows_snd _ _ _ Hr1) Hc1) as (xr1 & H1 & E1).
  destruct (transform_entry (Num 0) np_pi _ M i2 j (snd r2) c2 Hj
              (nth_error_rows_snd _ _ _ Hr2) Hc2) as (xr2 & H2 & E2).
  assert (Hin1 : In c1 (column M j)).
  { apply nth_error_In with i1. apply nth_error_column with (snd r1);
      [now apply nth_error_rows_snd | exact Hc1]. }
  assert (Hin2 : In c2 (column M j)).
  { apply nth_error_In with i2. apply nth_error_column with (snd r2);
      [now apply nth_error_rows_snd | exact Hc2]. }
  destruct (scaled_cell _ c1 x1 Hin1 Hx1) as (mn & mx & Hmn & Hmx & _ & T1).
  destruct (scaled_cell _ c2 x2 Hin2 Hx2) as (mn' & mx' & Hmn' & Hmx' & _ & T2).
  rewrite Hmn in Hmn'. rewrite Hmx in Hmx'.
  injection Hmn' as <-. injection Hmx' as <-.
  exists xr1, xr2, (scaled mn mx x1), (scaled mn mx x2).
  rewrite E1, E2, T1, T2. repeat split; try assumption; try reflexivity.
  now apply scaled_monotone.
Qed.

Lemma scaled_order_preserved_witness :
  exists X y xr1 xr2 y1 y2,
    prepare_for_quantum enc_df = Ok (X, y)
    /\ nth_error X 0 = Some xr1 /\ nth_error xr1 3 = Some (Num y1)
    /\ nth_error X 2 = Some xr2 /\ nth_error xr2 3 = Some (Num y2)
    /\ y1 <= y2.
Proof.
  destruct (scaled_order_preserved enc_df enc_feats _ _ 0 2 3
              (1%Z, [Num 299; Num 2; Num 91000; Num 800])
              (3%Z, [Num 301; Num 6; Num 91000; Num 820])
              (Num 800) (Num 820) 800 820 enc_run eq_refl)
    as (xr1 & xr2 & y1 & y2 & H); try reflexivity; [cbn; lia | lra |].
  eexists. eexists. exists xr1, xr2, y1, y2.
  split; [apply enc_run | exact H].
Defined.

(** ** From the feature builder to the encoder *)









(** ** The arrays saved by the script *)

(** [preprocess_data] saves nothing, whatever it returns. *)
Lemma preprocess_data_trace (fs : FS) (era5_file sst_file : string)
  (tr0 : list event) :
  exists tr res,
    preprocess_data era5_file sst_file fs tr0 = (tr0 ++ tr, res)
    /\ filter is_saveb tr = [].
Proof.
  unfold preprocess_data, bind, path_exists, open_dataset, lift, ret.
  destruct (fs era5_file) as [ds_uber|] eqn:Hu; cbn iota beta.
  - destruct (fs sst_file) as [ds_sst|] eqn:Hs; cbn [negb orb]; cbn iota beta.
    + rewrite Hu.
      destruct (add_relative_humidity (spatial_mean_frame ds_uber)) as [df1|e1].
      * rewrite Hs.
        destruct (join_step df1 (spatial_mean_frame ds_sst)) as [df_final|e2].
        -- destruct (label_step df_final) as [dm|e3];
             rewrite <- !app_assoc; eexists; eexists; split; reflexivity.
        -- rewrite <- !app_assoc. eexists. eexists. split; reflexivity.
      * rewrite <- !app_assoc. eexists. eexists. split; reflexivity.
    + rewrite <- !app_assoc. eexists. eexists. split; reflexivity.
  - eexists. eexists. split; reflexivity.
Qed.

Lemma one_hot_loop_length (target : list cell) (y : ndarray) :
  one_hot_loop target 0 (np_zeros (List.length target) 2) = Ok y ->
  List.length y = List.length target.
Proof.
  pose proof (one_hot_loop_outcome target []) as H.
  cbn [List.length app] in H. rewrite H.
  destruct (forallb index_okb target); intros E; [|discriminate].
  injection E as <-. apply length_map.
Qed.

Lemma prepare_for_quantum_lengths (df : DataFrame) (X y : ndarray) :
  prepare_for_quantum df = Ok (X, y) ->
  List.length X = List.length (rows df)
  /\ List.length y = List.length (rows df)
  /\ rows df <> [].
Proof.
  intros H.
  apply prepare_for_quantum_Ok in H as (feats & target & Hf & Ht & HX & Hy).
  pose proof (drop_column_length _ _ _ Hf) as Hl.
  apply fit_transform_Ok in HX as (Hne & _ & ->).
  split; [unfold transform; rewrite !length_map; exact Hl|].
  split.
  - rewrite <- (getitem_length _ _ _ Ht).
    replace (List.length target) with (List.length (s_values target)) in *
      by (unfold s_values; apply length_map).
    now apply one_hot_loop_length.
  - intros E. apply Hne. apply length_zero_iff_nil. rewrite Hl, E. reflexivity.
Qed.

(** The structure of a run of the script: it ends without a save, or
    it ends normally with the two saves of the arrays of the encoder. *)
Lemma main_run (fs : FS) (tr0 : list event) :
  exists pre,
    filter is_saveb pre = []
    /\ ((exists res, main fs tr0 = (tr0 ++ pre, res))
        \/ (exists df X y,
              prepare_for_quantum df = Ok (X, y)
              /\ main fs tr0
                 = (tr0 ++ pre ++ [EvSave "X_quantum_ready.npy" X;
                                   EvSave "y_quantum_ready.npy" y],
                    Ok tt))).
Proof.
  destruct (preprocess_data_trace fs ERA5_FILE SST_FILE tr0)
    as (pre & res & Hrun & Hpre).
  exists pre. split; [exact Hpre|].
  unfold main, bind. rewrite Hrun.
  destruct res as [[df|]|e].
  - unfold lift. destruct (prepare_for_quantum df) as [[X y]|e] eqn:Hp.
    + right. exists df, X, y. split; [exact Hp|].
      unfold np_save. cbn [fst snd]. rewrite <- !app_assoc. reflexivity.
    + left. eauto.
  - left. unfold ret. eauto.
  - left. eauto.
Qed.

(** X11.  The script never leaves one array without the other: the saves of
    a run are none, or the feature array under [X_quantum_ready.npy]
    followed by the label array under [y_quantum_ready.npy], in which
    case the run ends normally and both arrays have the same, positive,
    number of rows. *)
Theorem main_saves_both_or_none (fs : FS) (tr0 : list event) :
  exists tr res,
    main fs tr0 = (tr0 ++ tr, res)
    /\ (filter is_saveb tr = []
        \/ exists X y,
             filter is_saveb tr
             = [EvSave "X_quantum_ready.npy" X; EvSave "y_quantum_ready.npy" y]
             /\ res = Ok tt
             /\ List.length X = List.length y
             /\ (0 < List.length X)%nat).
Proof.
  destruct (main_run fs tr0) as (pre & Hpre & [[res Hrun] | (df & X & y & Hp & Hrun)]).
  - exists pre, res. split; [exact Hrun | now left].
  - eexists. exists (Ok tt). split; [exact Hrun|]. right. exists X, y.
    rewrite filter_app, Hpre. split; [reflexivity|]. split; [reflexivity|].
    destruct (prepare_for_quantum_lengths _ _ _ Hp) as (HX & Hy & Hne).
    split; [congruence|]. rewrite HX.
    destruct (rows df); [contradiction | cbn; lia].
Qed.






(** ** How many temperatures an anomaly needs *)

Lemma Rsum_app (l1 l2 : list R) : Rsum (l1 ++ l2) = Rsum l1 + Rsum l2.
Proof.
  induction l1 as [|x l1 IH]; cbn [app].
  - rewrite Rsum_nil. lra.
  - rewrite !Rsum_cons, IH. lra.
Qed.

Lemma Rsum_shift (a : R) (v : list R) :
  Rsum (map (fun y => y - a) v) = Rsum v - INR (List.length v) * a.
Proof.
  induction v as [|x v IH].
  - unfold Rsum; cbn; lra.
  - cbn [map]. rewrite !Rsum_cons, IH.
    change (List.length (x :: v)) with (S (List.length v)). rewrite S_INR. lra.
Qed.

(** The square of a sum is at most the number of terms times the sum
    of the squares. *)
Lemma Rsum_square_le (l : list R) :
  Rsum l * Rsum l <= INR (List.length l) * Rsum (map (fun y => y * y) l).
Proof.
  induction l as [|a l IH].
  - unfold Rsum; cbn; lra.
  - cbn [map]. rewrite !Rsum_cons.
    change (List.length (a :: l)) with (S (List.length l)). rewrite S_INR.
    set (s := Rsum l) in *. set (q := Rsum (map (fun y => y * y) l)) in *.
    set (k := INR (List.length l)) in *.
    assert (Hk : 0 <= k) by apply pos_INR.
    assert (Hq : 0 <= q).
    { unfold q. clear. induction l as [|b l IH]; cbn [map].
      - rewrite Rsum_nil. lra.
      - rewrite Rsum_cons. nra. }
    clearbody s q k.
    destruct (Req_dec k 0) as [E|E].
    + assert (Hs0 : s = 0).
      { rewrite E in IH. assert (0 <= s * s) by nra.
        destruct (Req_dec s 0) as [Z0|Z0]; [exact Z0|]. exfalso.
        assert (0 < s * s) by (apply Rsqr_pos_lt; exact Z0). lra. }
      rewrite Hs0, E. nra.
    + assert (Hkp : 0 < k) by lra.
      assert (H1 : 0 <= (k * a - s) * (k * a - s)) by apply Rle_0_sqr.
      assert (H2 : 0 <= k * (k * a * a - 2 * a * s + q)) by nra.
      assert (H3 : 0 <= k * a * a - 2 * a * s + q).
      { apply Rmult_le_reg_l with k; [exact Hkp|]. lra. }
      nra.
Qed.

(** Samuelson's inequality on deviations of sum zero. *)
Lemma deviation_bound (d : list R) (x : R) :
  In x d -> Rsum d = 0 ->
  INR (List.length d) * (x * x)
  <= (INR (List.length d) - 1) * Rsum (map (fun y => y * y) d).
Proof.
  intros Hin Hsum. apply in_split in Hin as (l1 & l2 & ->).
  rewrite map_app, Rsum_app in *. cbn [map] in *. rewrite Rsum_cons in *.
  rewrite length_app. cbn [List.length]. rewrite Nat.add_succ_r, S_INR, <- length_app.
  pose proof (Rsum_square_le (l1 ++ l2)) as Hcs.
  rewrite map_app, !Rsum_app in Hcs.
  set (k := INR (List.length (l1 ++ l2))) in *.
  set (q := Rsum (map (fun y => y * y) l1) + Rsum (map (fun y => y * y) l2)) in *.
  assert (Hs : Rsum l1 + Rsum l2 = - x) by lra.
  rewrite Hs in Hcs.
  replace (Rsum (map (fun y => y * y) l1) + (x * x + Rsum (map (fun y => y * y) l2)))
    with (q + x * x) by (unfold q; lra).
  nra.
Qed.

Lemma Rsum_map_ext (f g : R -> R) (v : list R) :
  (forall y, f y = g y) -> Rsum (map f v) = Rsum (map g v).
Proof.
  intros H. f_equal. apply map_ext. exact H.
Qed.

(** Every value of a list lies within [(n - 1) / sqrt n] sample standard
    deviations of the mean; stated without roots. *)
Lemma sample_deviation_bound (v : list R) (x : R) :
  In x v -> (2 <= List.length v)%nat ->
  INR (List.length v) * ((x - average v) * (x - average v))
  <= (INR (List.length v) - 1) * (INR (List.length v) - 1)
     * (sample_std v * sample_std v).
Proof.
  intros Hin Hn.
  set (n := INR (List.length v)).
  assert (Hn2 : 2 <= n) by (unfold n; apply (le_INR 2); exact Hn).
  set (a := average v).
  pose proof (deviation_bound (map (fun y => y - a) v) (x - a)) as Hd.
  rewrite length_map, map_map in Hd. fold n in Hd.
  assert (Hsum : Rsum (map (fun y => y - a) v) = 0).
  { rewrite Rsum_shift. fold n. unfold a, average. fold n. field. lra. }
  specialize (Hd (in_map (fun y => y - a) v x Hin) Hsum).
  assert (Hsq : sample_std v * sample_std v
                = Rsum (map (fun y => (a - y) ^ 2) v) / (n - 1)).
  { unfold sample_std. fold a.
    rewrite minus_INR by lia. fold n. change (INR 1) with 1.
    apply sqrt_sqrt. apply Rmult_le_pos;
      [apply Rsum_squares_nonneg | left; apply Rinv_0_lt_compat; lra]. }
  rewrite Hsq.
  rewrite (Rsum_map_ext (fun y => (a - y) ^ 2) (fun y => (y - a) * (y - a)))
    by (intros y; ring).
  replace ((n - 1) * (n - 1) * (Rsum (map (fun y => (y - a) * (y - a)) v) / (n - 1)))
    with ((n - 1) * Rsum (map (fun y => (y - a) * (y - a)) v)) by (field; lra).
  exact Hd.
Qed.

(** With at most five finite temperatures, no temperature of the
    column is above the threshold. *)
Lemma label_cell_few (t2m : Series) (c : cell) :
  (List.length (valid (s_values t2m)) <= 5)%nat ->
  In c (s_values t2m) ->
  label_cell t2m c = 0%Z.
Proof.
  intros Hfew Hin.
  destruct (label_cell_cases t2m c) as [H1|H0]; [|exact H0]. exfalso.
  apply label_cell_one_iff in H1 as (Hn & x & Hx & Hgt).
  set (v := valid (s_values t2m)) in *.
  pose proof (sample_deviation_bound v x (valid_In _ c x Hin Hx) Hn) as Hb.
  set (n := INR (List.length v)) in *.
  assert (Hn2 : 2 <= n) by (unfold n; apply (le_INR 2); exact Hn).
  assert (Hn5 : n <= 5).
  { pose proof (le_INR _ 5 Hfew) as H5. cbn [INR] in H5. unfold n. lra. }
  assert (Hs : 0 <= sample_std v) by (unfold sample_std; apply sqrt_pos).
  set (s := sample_std v) in *. set (d := x - average v) in *.
  assert (Hd : 2 * s < d) by (unfold d; lra).
  assert (Hd2 : 4 * (s * s) < d * d) by nra.
  assert (Hpoly : (n - 1) * (n - 1) <= 4 * n - 4) by nra.
  assert (Hss : 0 <= s * s) by nra.
  assert (Hup : (n - 1) * (n - 1) * (s * s) <= (4 * n - 4) * (s * s))
    by (apply Rmult_le_compat_r; assumption).
  assert (Hlow : n * (4 * (s * s)) < n * (d * d))
    by (apply Rmult_lt_compat_l; lra).
  nra.
Qed.

(** A column of six temperatures that has a temperature above the
    threshold. *)
Lemma label_cell_six :
  label_cell [ (1%Z, Num 0); (2%Z, Num 0); (3%Z, Num 0); (4%Z, Num 0);
               (5%Z, Num 0); (6%Z, Num 1) ] (Num 1) = 1%Z.
Proof.
  apply label_cell_one_iff. cbn [s_values map snd valid fval List.length].
  split; [lia|]. exists 1. split; [reflexivity|].
  assert (Ha : average [0; 0; 0; 0; 0; 1] = / 6) by (stat_simpl; lra).
  unfold sample_std. rewrite Ha. stat_simpl.
  match goal with |- context [sqrt ?e] => replace e with (/ 6) by field end.
  assert (Hs : sqrt (/ 6) < 5 / 12).
  { apply Rlt_le_trans with (sqrt ((5 / 12) * (5 / 12)));
      [apply sqrt_lt_1; lra | rewrite sqrt_square; lra]. }
  lra.
Qed.

(** X13.  With at most five finite temperatures in the joined frame, every
    row of the dataset has label 0: a temperature can exceed the mean
    by more than two sample standard deviations only among six values
    or more, and six are enough. *)
Theorem no_anomaly_below_six_temperatures
  (df_final df_model : DataFrame) (t2m : Series) (t : Time) (r : list cell) :
  getitem df_final "t2m" = Ok t2m ->
  label_step df_final = Ok df_model ->
  (List.length (valid (s_values t2m)) <= 5)%nat ->
  In (t, r) (rows df_model) ->
  (exists fs, r = fs ++ [Int 0])
  /\ (exists (six : Series) (c : cell),
        List.length (valid (s_values six)) = 6%nat
        /\ In c (s_values six) /\ label_cell six c = 1%Z).
Proof.
  intros Ht2m H Hfew Hin. split.
  2:{ eexists _, (Num 1). split; [|split; [|exact label_cell_six]].
      - reflexivity.
      - cbn. tauto. }
  destruct (label_step_row_origin _ _ _ _ _ Ht2m H Hin)
    as (r0 & fs & Hr0 & _ & -> & _).
  exists fs. rewrite label_cell_few; [reflexivity | exact Hfew|].
  apply getitem_Ok in Ht2m as [_ ->]. unfold s_values. rewrite map_map.
  cbn [snd]. apply in_map_iff. exists r0. split; [reflexivity | exact Hr0].
Qed.

Lemma no_anomaly_below_six_temperatures_witness :
  exists df_model,
    label_step c10_final = Ok df_model
    /\ In (3%Z, [Num 301; Num 50; Num 91200; Num 820; Int 0]) (rows df_model).
Proof.
  assert (Hnd : NoDup (index c10_final)) by (apply is_unique_NoDup; reflexivity).
  destruct (label_step_succeeds c10_final Hnd) as [dm Hdm].
  - unfold features, c10_final; cbn. repeat constructor; tauto.
  - cbn. tauto.
  - exists dm. split; [exact Hdm|].
    destruct (label_step_rows c10_final dm _ eq_refl Hdm) as (_ & Hrows & _).
    assert (Hin : exists l, In (3%Z, [Num 301; Num 50; Num 91200; Num 820; Int l])
                               (rows dm)).
    { rewrite Hrows by (unfold kept_rows; cbn; discriminate).
      eexists. apply in_map_iff.
      exists (3%Z, [Num 292; Num 50; Num 91200; Num 820; Num 301]).
      split; [reflexivity|]. unfold kept_rows. cbn. tauto. }
    destruct Hin as [l Hin].
    destruct (no_anomaly_below_six_temperatures c10_final dm _ 3%Z
                [Num 301; Num 50; Num 91200; Num 820; Int l]
                eq_refl Hdm) as [(fs & Hfs) _].
    + cbn. lia.
    + exact Hin.
    + change [Num 301; Num 50; Num 91200; Num 820; Int l]
        with ([Num 301; Num 50; Num 91200; Num 820] ++ [Int l]) in Hfs.
      apply app_inj_tail in Hfs as [_ E]. injection E as ->. exact Hin.
Defined.

(** ** The means over the grid *)






(** ** From the script to the trainer *)

Lemma written_app (tr1 tr2 : list event) (st : Store) :
  written (tr1 ++ tr2) st = written tr2 (written tr1 st).
Proof. unfold written. apply fold_left_app. Qed.

Lemma written_no_save (tr : list event) (st : Store) :
  filter is_saveb tr = [] -> written tr st = st.
Proof.
  revert st. induction tr as [|e tr IH]; intros st H; [reflexivity|].
  destruct e; cbn [filter is_saveb] in H; try discriminate;
    cbn [written fold_left]; apply IH; exact H.
Qed.

(** The loader on a store that holds both arrays. *)
Lemma load_and_split_data_present
  (tts : ndarray -> ndarray -> result split)
  (X_file y_file : string) (st : Store) (X y : ndarray) :
  st X_file = Some X -> st y_file = Some y ->
  load_and_split_data tts X_file y_file st
  = ([AcExists X_file; AcExists y_file; AcLoad X_file; AcLoad y_file],
     s <- tts X y ;; Ok (Some s)).
Proof.
  intros HX Hy. unfold load_and_split_data, np_load. rewrite HX, Hy. reflexivity.
Qed.

(** X15.  The guard of the loader makes its loads safe: whatever the working
    directory holds, the loader loads only files that exist and never
    raises [FileNotFoundError] of its own; it returns [None] without a
    load when a file is missing, and otherwise hands the two stored
    arrays to the split, whose outcome is its outcome. *)
Theorem load_and_split_data_guarded
  (tts : ndarray -> ndarray -> result split)
  (X_file y_file : string) (st : Store) :
  let run := load_and_split_data tts X_file y_file st in
  (forall p, In (AcLoad p) (fst run) -> st p <> None)
  /\ ((exists X y,
         st X_file = Some X /\ st y_file = Some y
         /\ snd run = (s <- tts X y ;; Ok (Some s)))
      \/ ((st X_file = None \/ st y_file = None)
          /\ snd run = Ok None /\ filter is_loadb (fst run) = [])).
Proof.
  cbv zeta. unfold load_and_split_data, np_load.
  destruct (st X_file) as [X|] eqn:HX.
  - destruct (st y_file) as [y|] eqn:Hy.
    + split.
      * intros p Hin. cbn [fst] in Hin.
        destruct Hin as [E|[E|[E|[E|[]]]]]; try discriminate E;
          injection E as <-; congruence.
      * left. exists X, y. repeat split.
    + split.
      * intros p Hin. cbn [fst] in Hin.
        destruct Hin as [E|[E|[]]]; discriminate E.
      * right. repeat split. now right.
  - split.
    + intros p Hin. cbn [fst] in Hin. destruct Hin as [E|[]]. discriminate E.
    + right. repeat split. now left.
Qed.

(** X16.  The trainer after the script.  Whatever the input files and
    whatever arrays the working directory held before: a run of the
    script either leaves the stored arrays as they were, or leaves the
    two arrays of the encoder under the names the loader reads, and the
    loader then hands exactly these two arrays, of the same positive
    number of rows, to the split. *)
Theorem trainer_loads_what_the_script_saved
  (tts : ndarray -> ndarray -> result split) (fs : FS) (st0 : Store) :
  let st := written (fst (main fs [])) st0 in
  (forall p, st p = st0 p)
  \/ (exists df X y,
        prepare_for_quantum df = Ok (X, y)
        /\ snd (main fs []) = Ok tt
        /\ st X_FILE = Some X /\ st Y_FILE = Some y
        /\ List.length X = List.length y /\ (0 < List.length X)%nat
        /\ snd (load_and_split_data tts X_FILE Y_FILE st)
           = (s <- tts X y ;; Ok (Some s))).
Proof.
  cbv zeta.
  destruct (main_run fs []) as (pre & Hpre & [[res Hrun] | (df & X & y & Hp & Hrun)]).
  - left. intros p. rewrite Hrun. cbn [fst app].
    rewrite written_no_save by exact Hpre. reflexivity.
  - right. exists df, X, y. rewrite Hrun. cbn [fst snd app].
    rewrite written_app, (written_no_save pre st0 Hpre).
    assert (HX : written [EvSave "X_quantum_ready.npy" X;
                          EvSave "y_quantum_ready.npy" y] st0 X_FILE = Some X)
      by reflexivity.
    assert (Hy : written [EvSave "X_quantum_ready.npy" X;
                          EvSave "y_quantum_ready.npy" y] st0 Y_FILE = Some y)
      by reflexivity.
    destruct (prepare_for_quantum_lengths _ _ _ Hp) as (HlX & Hly & Hne).
    split; [exact Hp|]. split; [reflexivity|].
    split; [exact HX|]. split; [exact Hy|].
    split; [congruence|]. split.
    + rewrite HlX. destruct (rows df); [contradiction | cbn; lia].
    + rewrite (load_and_split_data_present tts _ _ _ X y HX Hy). reflexivity.
Qed.
